(** * pip_cache_extractor: the cache-record reader, the content sniffer and
      the wheel-name reconstructor of [pip_cache_extractor.py], embedded as
      Rocq functions, with the properties of the design document stated and
      settled against them.

    Conventions of the embedding.
    - A Python [bytes] value is a [list byte]; a Python [str] is the list of
      its code points ([pystr]).
    - An exception is a value of [exn]; code that may raise returns a
      [result].
    - An open binary file is its contents together with the read position;
      the body of a [with open(...) as f] block is a computation in the
      [fileio] monad.
    - The GUI, the log file and the progress bar are left out. *)

From Stdlib.Strings Require Import Byte String.
From Stdlib Require Import List NArith Arith Bool Lia.
Import ListNotations.

Set Implicit Arguments.

(** ** Python values *)

Definition bytes := list byte.
Definition pystr := list N.

(** A [str] literal: the code points of an ASCII string. *)
Definition lit (s : string) : pystr := map Byte.to_N (list_byte_of_string s).

(** A [bytes] literal. *)
Definition blit (s : string) : bytes := list_byte_of_string s.

Inductive exn : Type :=
| IndexError
| StructError
| UnicodeDecodeError
| KeyError (key : pystr)
| FileNotFoundError
| OSError.

Inductive result (A : Type) : Type :=
| Return (a : A)
| Raise (e : exn).
Arguments Return {A} a.
Arguments Raise {A} e.

Definition rbind {A B} (r : result A) (k : A -> result B) : result B :=
  match r with
  | Return a => k a
  | Raise e => Raise e
  end.

(** ** Sequence operations shared by [bytes] and [str] *)

Section Sequences.
Variable A : Type.
Variable eqb : A -> A -> bool.

(** [s.startswith(p)] *)
Fixpoint startswith (p s : list A) : bool :=
  match p, s with
  | [], _ => true
  | _ :: _, [] => false
  | a :: p', b :: s' => eqb a b && startswith p' s'
  end.

(** [s.endswith(p)] *)
Definition endswith (p s : list A) : bool :=
  startswith (rev p) (rev s).

Fixpoint dropwhile (f : A -> bool) (s : list A) : list A :=
  match s with
  | [] => []
  | a :: s' => if f a then dropwhile f s' else s
  end.

(** [s.split(sep)] for a non-empty [sep]: scan left to right; [skip] counts
    the characters of a separator just matched that are still to be passed
    over, [cur] is the piece being built (reversed). *)
Fixpoint split_go (sep : list A) (skip : nat) (cur s : list A)
  : list (list A) :=
  match s with
  | [] => [rev cur]
  | c :: t =>
      match skip with
      | S k => split_go sep k cur t
      | O =>
          if startswith sep s
          then rev cur :: split_go sep (length sep - 1) [] t
          else split_go sep 0 (c :: cur) t
      end
  end.

Definition split (sep s : list A) : list (list A) := split_go sep 0 [] s.

(** [s.split(sep, 1)]: at most one cut, at the first occurrence. *)
Fixpoint split1_go (sep cur s : list A) : list (list A) :=
  match s with
  | [] => [rev cur]
  | c :: t =>
      if startswith sep s
      then [rev cur; skipn (length sep) s]
      else split1_go sep (c :: cur) t
  end.

Definition split1 (sep s : list A) : list (list A) := split1_go sep [] s.

(** [s.replace(old, new)] for a non-empty [old]: every non-overlapping
    occurrence, left to right. *)
Fixpoint replace_go (old new : list A) (skip : nat) (s : list A) : list A :=
  match s with
  | [] => []
  | c :: t =>
      match skip with
      | S k => replace_go old new k t
      | O =>
          if startswith old s
          then new ++ replace_go old new (length old - 1) t
          else c :: replace_go old new 0 t
      end
  end.

Definition replace (old new s : list A) : list A := replace_go old new 0 s.

(** [xs[i]] *)
Definition index (xs : list A) (i : nat) : result A :=
  match nth_error xs i with
  | Some a => Return a
  | None => Raise IndexError
  end.

(** [xs[-1]] *)
Definition index_last (xs : list A) : result A :=
  match rev xs with
  | a :: _ => Return a
  | [] => Raise IndexError
  end.
End Sequences.

Definition bstartswith : bytes -> bytes -> bool := startswith Byte.eqb.
Definition sstartswith : pystr -> pystr -> bool := startswith N.eqb.
Definition sendswith : pystr -> pystr -> bool := endswith N.eqb.

(** ** Binary files *)

(** A computation on an open file: the contents and the position go in, a
    value and the new position come out, or an exception is raised. *)
Definition fileio (A : Type) : Type := bytes -> nat -> result (A * nat).

Definition fret {A} (a : A) : fileio A := fun _ pos => Return (a, pos).

Definition fbind {A B} (m : fileio A) (k : A -> fileio B) : fileio B :=
  fun data pos =>
    match m data pos with
    | Return (a, pos') => k a data pos'
    | Raise e => Raise e
    end.

Definition flift {A} (r : result A) : fileio A :=
  fun _ pos =>
    match r with
    | Return a => Return (a, pos)
    | Raise e => Raise e
    end.

Notation "x <- m ;; k" := (fbind m (fun x => k))
  (at level 61, m at next level, right associativity).
Notation "m ;;; k" := (fbind m (fun _ => k))
  (at level 61, right associativity).

(** [f.read(n)]: the next [n] bytes, or as many as are left. *)
Definition f_read (n : nat) : fileio bytes :=
  fun data pos =>
    let got := firstn n (skipn pos data) in
    Return (got, pos + length got).

(** [f.seek(k)] *)
Definition f_seek (k : nat) : fileio unit :=
  fun _ _ => Return (tt, k).

(** Run the block of a [with open(file, "rb")] statement. *)
Definition with_open {A} (data : bytes) (m : fileio A) : result A :=
  match m data 0 with
  | Return (a, _) => Return a
  | Raise e => Raise e
  end.

(** [struct.unpack(">H", b)[0]] and [struct.unpack(">I", b)[0]]: a
    big-endian unsigned integer of exactly [width] bytes. *)
Definition be_uint (bs : bytes) : N :=
  fold_left (fun acc b => acc * 256 + Byte.to_N b)%N bs 0%N.

Definition struct_unpack_be (width : nat) (bs : bytes) : result N :=
  if length bs =? width then Return (be_uint bs) else Raise StructError.

(** ** Text *)

Definition in_range (lo hi n : N) : bool := ((lo <=? n) && (n <=? hi))%N.

Definition is_cont (b : byte) : bool := in_range 0x80 0xBF (Byte.to_N b).

Definition cont_bits (b : byte) : N := (Byte.to_N b - 0x80)%N.

(** The second byte of a three-byte sequence: no overlong form after [E0],
    no surrogate after [ED]. *)
Definition second_of_3 (n0 : N) (b1 : byte) : bool :=
  if (n0 =? 0xE0)%N then in_range 0xA0 0xBF (Byte.to_N b1)
  else if (n0 =? 0xED)%N then in_range 0x80 0x9F (Byte.to_N b1)
  else is_cont b1.

(** The second byte of a four-byte sequence: no overlong form after [F0],
    nothing above U+10FFFF after [F4]. *)
Definition second_of_4 (n0 : N) (b1 : byte) : bool :=
  if (n0 =? 0xF0)%N then in_range 0x90 0xBF (Byte.to_N b1)
  else if (n0 =? 0xF4)%N then in_range 0x80 0x8F (Byte.to_N b1)
  else is_cont b1.

(** The strict UTF-8 decoder; [None] where Python raises. *)
Fixpoint utf8_code_points (bs : bytes) : option pystr :=
  match bs with
  | [] => Some []
  | b0 :: r0 =>
      let n0 := Byte.to_N b0 in
      if (n0 <? 0x80)%N then option_map (cons n0) (utf8_code_points r0)
      else if in_range 0xC2 0xDF n0 then
        match r0 with
        | b1 :: r1 =>
            if is_cont b1
            then option_map (cons ((n0 - 0xC0) * 64 + cont_bits b1)%N)
                            (utf8_code_points r1)
            else None
        | _ => None
        end
      else if in_range 0xE0 0xEF n0 then
        match r0 with
        | b1 :: b2 :: r2 =>
            if second_of_3 n0 b1 && is_cont b2
            then option_map
                   (cons (((n0 - 0xE0) * 64 + cont_bits b1) * 64
                          + cont_bits b2)%N)
                   (utf8_code_points r2)
            else None
        | _ => None
        end
      else if in_range 0xF0 0xF4 n0 then
        match r0 with
        | b1 :: b2 :: b3 :: r3 =>
            if second_of_4 n0 b1 && is_cont b2 && is_cont b3
            then option_map
                   (cons ((((n0 - 0xF0) * 64 + cont_bits b1) * 64
                           + cont_bits b2) * 64 + cont_bits b3)%N)
                   (utf8_code_points r3)
            else None
        | _ => None
        end
      else None
  end.

(** [b.decode("utf-8")] *)
Definition decode_utf8 (bs : bytes) : result pystr :=
  match utf8_code_points bs with
  | Some s => Return s
  | None => Raise UnicodeDecodeError
  end.

(** The characters [str.strip()] removes. *)
Definition is_space (c : N) : bool :=
  in_range 0x09 0x0D c || in_range 0x1C 0x20 c || (c =? 0x85)%N
  || (c =? 0xA0)%N || (c =? 0x1680)%N || in_range 0x2000 0x200A c
  || (c =? 0x2028)%N || (c =? 0x2029)%N || (c =? 0x202F)%N
  || (c =? 0x205F)%N || (c =? 0x3000)%N.

(** [s.strip()] *)
Definition strip (s : pystr) : pystr :=
  rev (dropwhile is_space (rev (dropwhile is_space s))).

(** The line boundaries of [str.splitlines()]. *)
Definition is_linebreak (c : N) : bool :=
  in_range 0x0A 0x0D c || in_range 0x1C 0x1E c || (c =? 0x85)%N
  || (c =? 0x2028)%N || (c =? 0x2029)%N.

(** [s.splitlines()]: line ends are dropped, CR LF counts once, and no
    empty last line is produced after a final line end. *)
Fixpoint splitlines_go (cur s : pystr) : list pystr :=
  match s with
  | [] => match cur with [] => [] | _ => [rev cur] end
  | c :: t =>
      if (c =? 0x0D)%N then
        match t with
        | c' :: t' =>
            if (c' =? 0x0A)%N then rev cur :: splitlines_go [] t'
            else rev cur :: splitlines_go [] t
        | [] => rev cur :: splitlines_go [] t
        end
      else if is_linebreak c then rev cur :: splitlines_go [] t
      else splitlines_go (c :: cur) t
  end.

Definition splitlines (s : pystr) : list pystr := splitlines_go [] s.

(** Truth value of an [Optional[str]]: [None] and the empty string are
    false. *)
Definition truthy (o : option pystr) : bool :=
  match o with
  | Some (_ :: _) => true
  | _ => false
  end.

(** How an [Optional[str]] prints inside an f-string. *)
Definition fmt (o : option pystr) : pystr :=
  match o with
  | Some s => s
  | None => lit "None"
  end.

(** ** The content sniffer: [CacheExtractorApp.detect_file_type] *)

Record fields : Type := mkFields {
  f_name : option pystr;
  f_version : option pystr;
  f_python_version : option pystr
}.

(** One turn of the [for line in lines] loop. *)
Definition scan_line (st : fields) (line : pystr) : result fields :=
  if sstartswith (lit "Name:") line then
    rbind (index (split1 N.eqb (lit ":") line) 1) (fun v =>
    Return (mkFields (Some (strip v)) (f_version st) (f_python_version st)))
  else if sstartswith (lit "Version:") line then
    rbind (index (split1 N.eqb (lit ":") line) 1) (fun v =>
    Return (mkFields (f_name st) (Some (strip v)) (f_python_version st)))
  else if sstartswith (lit "Classifier: Programming Language :: Python ::")
                      line then
    rbind (index_last (split N.eqb (lit "::") line)) (fun v =>
    Return (mkFields (f_name st) (f_version st) (Some (strip v))))
  else Return st.

Fixpoint scan_lines (st : fields) (lines : list pystr) : result fields :=
  match lines with
  | [] => Return st
  | line :: rest => rbind (scan_line st line) (fun st' => scan_lines st' rest)
  end.

(** The [Metadata-Version] branch.  [Return (Some n)]: the branch returned
    the name [n]; [Return None]: it fell out of the [if] chain. *)
Definition metadata_branch (body : bytes) : result (option pystr) :=
  rbind (decode_utf8 body) (fun text =>
  let lines := splitlines text in
  rbind (scan_lines (mkFields None None None) lines) (fun st =>
  let name := f_name st in
  let version := f_version st in
  let python_version := f_python_version st in
  if truthy name && truthy version && truthy python_version then
    Return (Some (fmt name ++ lit "-" ++ fmt version ++ lit "-py"
                  ++ fmt python_version ++ lit ".metadata.txt"))
  else if truthy name && truthy version then
    Return (Some (fmt name ++ lit "-" ++ fmt version
                  ++ lit "-py3-none-any.metadata.txt"))
  else Return None)).

Definition magic_zip : bytes := [x50; x4b; x03; x04].
Definition magic_gzip : bytes := [x1f; x8b; x08; x00].
Definition magic_gzip_named : bytes := [x1f; x8b; x08; x08].

(** The body of the [try] block. *)
Definition detect_try (body : bytes) (default_name : pystr)
  : result (option pystr) :=
  if bstartswith magic_zip body then
    Return (Some (default_name ++ lit ".whl"))
  else if bstartswith magic_gzip body then
    Return (Some (default_name ++ lit ".gz"))
  else if bstartswith magic_gzip_named body then
    Return (Some (default_name ++ lit ".tgz"))
  else if bstartswith (blit "Metadata-Version") body then
    metadata_branch body
  else Return None.

Definition detect_file_type (body : bytes) (default_name : pystr) : pystr :=
  match detect_try body default_name with
  | Return (Some final_name) => final_name
  | Return None => default_name ++ lit ".dat"
  | Raise _ => default_name ++ lit ".dat"
  end.

(** A [str] shown as a Rocq string, "?" for what is not a byte. *)
Definition str_of (s : pystr) : string :=
  string_of_list_byte
    (map (fun c => match Byte.of_N c with Some b => b | None => x3f end) s).

(** The metadata document of the design notes. *)
Definition sample_metadata : bytes :=
  blit "Metadata-Version: 2.1
Name: foo
Version: 1.0
Classifier: Programming Language :: Python :: 3.9
".

(** ** Cache records: [CacheExtractorApp.extract_file] *)

Definition MAX_FILE_SIZE_MB : N := 384.
Definition READ_IN_SIZE : nat := 32.

(** A [Path] and what is behind it.  [parts] are the components of the path
    as [pathlib] parsed them (none contains a separator); [data] is the
    contents, or [None] when the file cannot be opened or examined. *)
Record cache_file : Type := mkFile {
  parts : list pystr;
  data : option bytes
}.

(** [file.name]: the final component. *)
Definition path_name (file : cache_file) : pystr := last (parts file) [].

(** Where the body is and how long the header says it is. *)
Record RecordHeader : Type := mkHeader {
  body_length : N;
  body_offset : nat
}.

(** The ways a call of [extract_file] ends.  All but [Written] return
    [None]; they differ in the line that returns and in what is printed. *)
Inductive outcome : Type :=
| Declined                      (* the user refused a large file *)
| NotCc4                        (* the header does not start with cc=4 *)
| UnknownFormat                 (* "Unknown format in ..." *)
| Failed (e : exn)              (* "Failed to extract ...", the handler *)
| Written (final_name : pystr) (body : bytes).


(** The branch on the layout indicator.  [None] is the [else] branch. *)
Definition parse_header (header : bytes) : fileio (option RecordHeader) :=
  indicator <- flift (index header 0x15) ;;
  if (Byte.to_N indicator =? 0xC5)%N then
    f_seek 0x16 ;;;
    raw <- f_read 2 ;;
    len <- flift (struct_unpack_be 2 raw) ;;
    fret (Some (mkHeader len 0x18))
  else if (Byte.to_N indicator =? 0xC6)%N then
    f_seek 0x16 ;;;
    raw <- f_read 4 ;;
    len <- flift (struct_unpack_be 4 raw) ;;
    fret (Some (mkHeader len 0x1A))
  else fret None.

(** [f.seek(body_offset); body = f.read(body_length)] *)
Definition read_body (h : RecordHeader) : fileio bytes :=
  f_seek (body_offset h) ;;;
  f_read (N.to_nat (body_length h)).

(** The block under [with open(file, "rb") as f]: an early [return None]
    on the left, the body on the right. *)
Definition read_record : fileio (outcome + bytes) :=
  header <- f_read READ_IN_SIZE ;;
  if negb (bstartswith (blit "cc=4") header) then fret (inl NotCc4)
  else
    h <- parse_header header ;;
    match h with
    | None => fret (inl UnknownFormat)
    | Some h => body <- read_body h ;; fret (inr body)
    end.

Section ExtractFile.
(** [os.sep], and the answer to the "Large File" question. *)
Variable os_sep : pystr.
Variable proceed : bool.

Definition default_name_of (file : cache_file) : pystr :=
  replace N.eqb os_sep (lit "-") (path_name file).

(** Writing the output file is taken to succeed. *)
Definition extract_file (file : cache_file) : outcome :=
  match data file with
  | None => Failed OSError
  | Some contents =>
      if (MAX_FILE_SIZE_MB * 1024 * 1024 <? N.of_nat (length contents))%N
         && negb proceed
      then Declined
      else
        match with_open contents read_record with
        | Raise e => Failed e
        | Return (inl early) => early
        | Return (inr body) =>
            let default_name := default_name_of file in
            let final_name := detect_file_type body default_name in
            Written final_name body
        end
  end.
End ExtractFile.

(** ** The signature check and the batch driver *)

Fixpoint bytes_eqb (a b : bytes) : bool :=
  match a, b with
  | [], [] => true
  | x :: a', y :: b' => Byte.eqb x y && bytes_eqb a' b'
  | _, _ => false
  end.

Fixpoint str_eqb (a b : pystr) : bool :=
  match a, b with
  | [], [] => true
  | x :: a', y :: b' => (x =? y)%N && str_eqb a' b'
  | _, _ => false
  end.

Definition is_cachecontrol_v4 (file : cache_file) : bool :=
  match data file with
  | None => false
  | Some contents =>
      match with_open contents (f_read 5) with
      | Return got => bytes_eqb got (blit "cc=4,")
      | Raise _ => false
      end
  end.

(** What [base.rglob("*")] yields: files and directories. *)
Record dir_entry : Type := mkEntry {
  entry : cache_file;
  is_file : bool
}.

(** [load_files]: the new [file_list]. *)
Definition load_files (tree : list dir_entry) : list cache_file :=
  map entry
    (filter (fun e => is_file e && is_cachecontrol_v4 (entry e)) tree).

Section Batch.
Variable os_sep : pystr.
Variable proceed : bool.
(** The value of [abort_flag] when the loop reaches index [idx]. *)
Variable abort_flag : nat -> bool.

(** The loop of [extract_all]: the files handed to [extract_file] and how
    each call ended.  The renaming of a written [.whl] and the progress
    display come after the call and are not part of this. *)
Fixpoint extract_all_from (idx : nat) (files : list cache_file)
  : list (cache_file * outcome) :=
  match files with
  | [] => []
  | file :: rest =>
      if abort_flag idx then []
      else (file, extract_file os_sep proceed file)
             :: extract_all_from (S idx) rest
  end.

Definition extract_all (file_list : list cache_file)
  : list (cache_file * outcome) :=
  extract_all_from 0 file_list.

(** [extract_selected] with the listbox selection [selection]. *)
Definition extract_selected (file_list : list cache_file)
           (selection : option nat) : list (cache_file * outcome) :=
  match selection with
  | None => []
  | Some i =>
      match nth_error file_list i with
      | Some file => [(file, extract_file os_sep proceed file)]
      | None => []
      end
  end.
End Batch.

(** ** Wheel archives: [reconstruct_whl_filename] *)

(** An opened zip archive: its entries in directory order, name and
    decompressed contents. *)
Definition archive : Type := list (pystr * bytes).

Definition namelist (a : archive) : list pystr := map fst a.

(** [archive.open(name)]: the entry of that name (the last one, when a name
    occurs twice), [KeyError] when there is none. *)
Definition archive_open (a : archive) (name : pystr) : result bytes :=
  match find (fun e => str_eqb (fst e) name) (rev a) with
  | Some e => Return (snd e)
  | None => Raise (KeyError name)
  end.

(** [name.split('/')[0]] *)
Definition first_segment (name : pystr) : pystr :=
  match split N.eqb (lit "/") name with
  | seg :: _ => seg
  | [] => []
  end.

Definition str_mem (s : pystr) (l : list pystr) : bool :=
  existsb (str_eqb s) l.

(** The elements of the set built from a list: each value once. *)
Fixpoint set_of (l : list pystr) : list pystr :=
  match l with
  | [] => []
  | s :: l' => if str_mem s l' then set_of l' else s :: set_of l'
  end.

Definition dist_info_folders (a : archive) : list pystr :=
  set_of (map first_segment
              (filter (sendswith (lit ".dist-info/WHEEL")) (namelist a))).

(** Iterating over a binary file: lines end after each LF, which is kept. *)
Fixpoint readlines_go (cur : bytes) (bs : bytes) : list bytes :=
  match bs with
  | [] => match cur with [] => [] | _ => [rev cur] end
  | b :: t =>
      if Byte.eqb b x0a then rev (b :: cur) :: readlines_go [] t
      else readlines_go (b :: cur) t
  end.

Definition readlines (bs : bytes) : list bytes := readlines_go [] bs.

(** The [for line_bytes in wheel_file] loop; [Return None] when it runs to
    the end. *)
Fixpoint scan_wheel (variable_name : pystr) (lines : list bytes)
  : result (option pystr) :=
  match lines with
  | [] => Return None
  | line_bytes :: rest =>
      rbind (decode_utf8 line_bytes) (fun decoded =>
      let line := strip decoded in
      if sstartswith (lit "Tag:") line then
        let tag_name := strip (skipn (length (lit "Tag:")) line) in
        Return (Some (variable_name ++ lit "-" ++ tag_name ++ lit ".whl"))
      else scan_wheel variable_name rest)
  end.

Section Reconstruct.
(** Which element [set.pop()] takes: Python does not say.  The element at
    position [pick] (modulo the size) stands for any of them. *)
Variable pick : nat.

Definition set_pop (s : list pystr) : pystr :=
  nth (pick mod length s) s [].

Definition reconstruct_whl_filename (a : archive) : result (option pystr) :=
  let folders := dist_info_folders a in
  match folders with
  | [] => Raise FileNotFoundError
  | _ :: _ =>
      let dist_info_folder := set_pop folders in
      let variable_name :=
        replace N.eqb (lit ".dist-info") (lit "") dist_info_folder in
      let wheel_path := dist_info_folder ++ lit "/WHEEL" in
      rbind (archive_open a wheel_path) (fun wheel_file =>
      scan_wheel variable_name (readlines wheel_file))
  end.
End Reconstruct.

(** ** Derived notions used in the statements *)

(** The header step of [extract_file] on its own: read the window, branch
    on the indicator. *)
Definition header_of (contents : bytes) : result (option RecordHeader) :=
  with_open contents (header <- f_read READ_IN_SIZE ;; parse_header header).

(** The byte at an offset, as a number. *)
Definition byte_at (bs : bytes) (i : nat) : N := Byte.to_N (nth i bs x00).


(** ** Sample inputs *)

(** A header of 22 bytes ending in the indicator, followed by a length
    field. *)
Definition sample_header (indicator : byte) (len : bytes) : bytes :=
  blit "cc=4," ++ repeat x00 16 ++ [indicator] ++ len.

(** A record with a 16-byte body, 40 bytes in all. *)
Definition sample_record : bytes :=
  sample_header xc5 [x00; x10] ++ blit "0123456789abcdef".

(** The same record cut one byte short: 0x18 + 16 - 1 bytes. *)
Definition sample_truncated : bytes :=
  sample_header xc5 [x00; x10] ++ blit "0123456789abcde".


Definition file_x (contents : bytes) : cache_file :=
  mkFile [lit "x"] (Some contents).

(** ** The metadata fields, said directly *)

(** The last line that starts with [prefix]. *)
Definition last_with (prefix : pystr) (lines : list pystr) : option pystr :=
  find (sstartswith prefix) (rev lines).

(** The trimmed text after the prefix of a line. *)
Definition field_after (prefix line : pystr) : pystr :=
  strip (skipn (length prefix) line).

(** The trimmed last piece of a line cut at every "::". *)
Definition tag_of (line : pystr) : pystr :=
  strip (last (split N.eqb (lit "::") line) []).

Definition classifier_prefix : pystr :=
  lit "Classifier: Programming Language :: Python ::".

Definition metadata_name (lines : list pystr) : option pystr :=
  option_map (field_after (lit "Name:")) (last_with (lit "Name:") lines).

Definition metadata_version (lines : list pystr) : option pystr :=
  option_map (field_after (lit "Version:"))
             (last_with (lit "Version:") lines).

Definition metadata_tag (lines : list pystr) : option pystr :=
  option_map tag_of (last_with classifier_prefix lines).

(** The fields after the loop has seen [lines], starting from [st]. *)
Definition fields_after (st : fields) (lines : list pystr) : fields :=
  let keep (found old : option pystr) :=
    match found with Some v => Some v | None => old end in
  mkFields (keep (metadata_name lines) (f_name st))
           (keep (metadata_version lines) (f_version st))
           (keep (metadata_tag lines) (f_python_version st)).

(** A metadata document whose [Name:] line has no value. *)
Definition sample_metadata_no_name : bytes :=
  blit "Metadata-Version: 2.1
Name:
Version: 1.0
".

Definition sample_metadata_no_classifier : bytes :=
  blit "Metadata-Version: 2.1
Name: foo
Version: 1.0
".

(** ** Notions for the statements about wheel archives *)

Definition wheel_suffix : pystr := lit ".dist-info/WHEEL".

(** A line of the WHEEL file that decodes and, trimmed, does not start
    with "Tag:". *)
Definition no_tag_line (line_bytes : bytes) : Prop :=
  exists decoded,
    decode_utf8 line_bytes = Return decoded
    /\ sstartswith (lit "Tag:") (strip decoded) = false.

(** ".dist-info" occurs in [stem ++ ".dist-info"] at the end only. *)
Definition suffix_only (stem : pystr) : Prop :=
  forall i, i < length stem ->
    sstartswith (lit ".dist-info") (skipn i (stem ++ lit ".dist-info"))
    = false.

(** An entry name with a directory above its [.dist-info] directory: at
    least three segments. *)
Definition nested (name : pystr) : Prop :=
  3 <= length (split N.eqb (lit "/") name).

Definition sample_wheel : archive :=
  [(lit "pkg-1.0.dist-info/METADATA", blit "Metadata-Version: 2.1
");
   (lit "pkg-1.0.dist-info/WHEEL", blit "Wheel-Version: 1.0
Tag: py3-none-any
")].

(** A WHEEL file without a "Tag:" line. *)
Definition sample_wheel_no_tag : archive :=
  [(lit "pkg-1.0.dist-info/WHEEL", blit "Wheel-Version: 1.0
Generator: x
")].


(** Only a nested [.dist-info] directory. *)
Definition sample_wheel_nested : archive :=
  [(lit "sub/pkg-1.0.dist-info/WHEEL", blit "Tag: py3-none-any
")].

(** A nested [.dist-info] directory, and a file WHEEL next to it. *)
Definition sample_wheel_nested_sibling : archive :=
  [(lit "sub/pkg-1.0.dist-info/WHEEL", blit "Tag: py3-none-any
");
   (lit "sub/WHEEL", blit "Tag: cp39
")].

(** Two records of the same name in different directories of the cache. *)
Definition file_a_x : cache_file :=
  mkFile [lit "a"; lit "x"] (Some sample_record).
Definition file_b_x : cache_file :=
  mkFile [lit "b"; lit "x"] (Some sample_record).

(** A file that starts with "cc=4" but not with "cc=4,". *)
Definition sample_other_signature : bytes :=
  blit "cc=4;" ++ repeat x00 16 ++ [xc5; x00; x01; x2a].

From Stdlib Require Import ZArith.

(** ** Further sample inputs *)


(** A WHEEL file whose first line is not UTF-8. *)
Definition sample_wheel_bad_line : archive :=
  [(lit "pkg-1.0.dist-info/WHEEL", [xff; x0a] ++ blit "Tag: py3-none-any
")].

(** ** [CacheExtractorApp.center_window] *)

(** The offsets computed for a window of [width] by [height] on a screen of
    [screen_width] by [screen_height]; [//] is floor division.  The string
    handed to [geometry] is made of these four numbers. *)
Definition center_window (screen_width screen_height width height : Z)
  : Z * Z :=
  let x := (screen_width / 2 - width / 2)%Z in
  let y := (screen_height / 2 - height / 2)%Z in
  (x, y).

(** ** Documents in the shapes the code reads *)

(** Bytes that are printable ASCII other than the space. *)
Definition plain_byte (b : byte) : bool := in_range 0x21 0x7E (Byte.to_N b).
Definition plain (bs : bytes) : bool := forallb plain_byte bs.

(** Plain bytes without a colon. *)
Definition plain_no_colon (bs : bytes) : bool :=
  forallb (fun b => plain_byte b && negb (Byte.eqb b x3a)) bs.

(** The text of ASCII bytes. *)
Definition ascii_text (bs : bytes) : pystr := map Byte.to_N bs.

(** A metadata document with a name, a version and, when [tag] is given,
    one classifier line for the Python version. *)
Definition metadata_document (name version : bytes) (tag : option bytes)
  : bytes :=
  blit "Metadata-Version: 2.1
Name: " ++ name ++ blit "
Version: " ++ version ++ blit "
"
  ++ match tag with
     | Some t =>
         blit "Classifier: Programming Language :: Python :: " ++ t ++ blit "
"
     | None => []
     end.

(** A wheel archive with the one entry [stem.dist-info/WHEEL], whose WHEEL
    file has a version line and one tag line. *)
Definition wheel_archive (stem : pystr) (tag : bytes) : archive :=
  [(stem ++ lit ".dist-info" ++ lit "/WHEEL",
    blit "Wheel-Version: 1.0
Tag: " ++ tag ++ blit "
")].

(** No "/" in a name. *)
Definition no_slash (s : pystr) : Prop :=
  forall x, In x s -> (47 =? x)%N = false.
(** * Properties *)

(** ** Sequences *)

Lemma byte_eqb_eq (a b : byte) : Byte.eqb a b = true <-> a = b.
Proof.
  split.
  - apply Byte.byte_dec_bl.
  - apply Byte.byte_dec_lb.
Qed.

Section SequenceFacts.
Variable A : Type.
Variable eqb : A -> A -> bool.
Hypothesis eqb_eq : forall a b, eqb a b = true <-> a = b.

Lemma startswith_iff (p s : list A) :
  startswith eqb p s = true <-> exists t, s = p ++ t.
Proof.
  revert s; induction p as [|a p IH]; intros s; simpl.
  - split; [intros _; now exists s | reflexivity].
  - destruct s as [|b s].
    + split; [discriminate | intros [t Ht]; discriminate].
    + rewrite andb_true_iff, eqb_eq, IH. split.
      * intros [-> [t ->]]. now exists t.
      * intros [t Ht]. injection Ht as -> ->. split; [reflexivity | now exists t].
Qed.

Lemma startswith_app (p t : list A) : startswith eqb p (p ++ t) = true.
Proof. apply startswith_iff. now exists t. Qed.

Lemma split_go_nonempty (sep : list A) (s : list A) :
  forall skip cur, split_go eqb sep skip cur s <> [].
Proof.
  induction s as [|c t IH]; intros skip cur; simpl.
  - discriminate.
  - destruct skip; [|apply IH].
    destruct (startswith eqb sep (c :: t)); [discriminate | apply IH].
Qed.

Lemma index_last_nonempty (xs : list (list A)) :
  xs <> [] -> index_last xs = Return (last xs []).
Proof.
  intros Hne. unfold index_last.
  destruct (exists_last Hne) as [front [a ->]].
  rewrite rev_app_distr, last_last. reflexivity.
Qed.
End SequenceFacts.

Lemma bstartswith_iff (p s : bytes) :
  bstartswith p s = true <-> exists t, s = p ++ t.
Proof. apply startswith_iff, byte_eqb_eq. Qed.

Lemma sstartswith_iff (p s : pystr) :
  sstartswith p s = true <-> exists t, s = p ++ t.
Proof. apply startswith_iff, N.eqb_eq. Qed.

Lemma bytes_eqb_eq (a b : bytes) : bytes_eqb a b = true <-> a = b.
Proof.
  revert b; induction a as [|x a IH]; intros [|y b]; simpl;
    try (split; [discriminate | discriminate]); [tauto|].
  rewrite andb_true_iff, byte_eqb_eq, IH.
  split; [intros [-> ->]; reflexivity | intros H; injection H; auto].
Qed.

Lemma str_eqb_eq (a b : pystr) : str_eqb a b = true <-> a = b.
Proof.
  revert b; induction a as [|x a IH]; intros [|y b]; simpl;
    try (split; [discriminate | discriminate]); [tauto|].
  rewrite andb_true_iff, N.eqb_eq, IH.
  split; [intros [-> ->]; reflexivity | intros H; injection H; auto].
Qed.

(** ** Reading the header *)

Lemma f_read_at (n pos : nat) (contents : bytes) :
  f_read n contents pos =
  Return (firstn n (skipn pos contents),
          pos + length (firstn n (skipn pos contents))).
Proof. reflexivity. Qed.

Lemma index_nth (bs : bytes) (i : nat) :
  i < length bs -> index bs i = Return (nth i bs x00).
Proof.
  intros H. unfold index. now rewrite (nth_error_nth' bs x00 H).
Qed.

Lemma index_out (bs : bytes) (i : nat) :
  length bs <= i -> index bs i = Raise IndexError.
Proof.
  intros H. unfold index.
  now rewrite (proj2 (nth_error_None bs i) H).
Qed.

Lemma firstn_skipn_2 (bs : bytes) (pos : nat) :
  pos + 2 <= length bs ->
  firstn 2 (skipn pos bs) = [nth pos bs x00; nth (S pos) bs x00].
Proof.
  revert bs; induction pos as [|pos IH]; intros bs H.
  - destruct bs as [|a [|b bs]]; simpl in *; try lia. reflexivity.
  - destruct bs as [|a bs]; simpl in *; [lia|]. apply IH. lia.
Qed.

Lemma firstn_skipn_4 (bs : bytes) (pos : nat) :
  pos + 4 <= length bs ->
  firstn 4 (skipn pos bs) =
  [nth pos bs x00; nth (1 + pos) bs x00; nth (2 + pos) bs x00;
   nth (3 + pos) bs x00].
Proof.
  revert bs; induction pos as [|pos IH]; intros bs H.
  - destruct bs as [|a [|b [|c [|d bs]]]]; simpl in *; try lia. reflexivity.
  - destruct bs as [|a bs]; simpl in *; [lia|].
    rewrite IH by lia. repeat f_equal; lia.
Qed.

Lemma be_uint_2 (a b : byte) :
  be_uint [a; b] = (256 * Byte.to_N a + Byte.to_N b)%N.
Proof. unfold be_uint. simpl fold_left. lia. Qed.

Lemma be_uint_4 (a b c d : byte) :
  be_uint [a; b; c; d] =
  (16777216 * Byte.to_N a + 65536 * Byte.to_N b + 256 * Byte.to_N c
   + Byte.to_N d)%N.
Proof. unfold be_uint. simpl fold_left. lia. Qed.

Lemma nth_firstn_lt (bs : bytes) (i n : nat) :
  i < n -> nth i (firstn n bs) x00 = nth i bs x00.
Proof.
  revert bs n; induction i as [|i IH]; intros [|b bs] [|n] H;
    simpl; try lia; try reflexivity.
  apply IH. lia.
Qed.

(** What the header step does, for every file: the indicator is looked up
    in the window, the length field is read from the file itself. *)
Lemma header_of_cases (contents : bytes) :
  header_of contents =
  if length contents <=? 0x15 then Raise IndexError
  else if (byte_at contents 0x15 =? 0xC5)%N then
    if 0x18 <=? length contents
    then Return (Some (mkHeader
           (256 * byte_at contents 0x16 + byte_at contents 0x17) 0x18))
    else Raise StructError
  else if (byte_at contents 0x15 =? 0xC6)%N then
    if 0x1A <=? length contents
    then Return (Some (mkHeader
           (16777216 * byte_at contents 0x16 + 65536 * byte_at contents 0x17
            + 256 * byte_at contents 0x18 + byte_at contents 0x19) 0x1A))
    else Raise StructError
  else Return None.
Proof.
  unfold header_of, with_open, fbind at 1. rewrite f_read_at.
  change (skipn 0 contents) with contents.
  set (header := firstn READ_IN_SIZE contents).
  assert (Hlen : length header = Nat.min READ_IN_SIZE (length contents))
    by apply length_firstn.
  unfold READ_IN_SIZE in Hlen.
  unfold parse_header, fbind at 1, flift at 1.
  destruct (Nat.leb_spec (length contents) 0x15) as [Hshort | Hlong].
  - rewrite index_out by lia. reflexivity.
  - rewrite index_nth by lia.
    assert (Hind : Byte.to_N (nth 21 header x00) = byte_at contents 0x15).
    { unfold byte_at, header, READ_IN_SIZE. now rewrite nth_firstn_lt by lia. }
    rewrite Hind.
    destruct (byte_at contents 0x15 =? 0xC5)%N.
    + unfold fbind, f_seek, flift, fret, struct_unpack_be. rewrite f_read_at.
      destruct (Nat.leb_spec 0x18 (length contents)) as [Hfull | Hcut].
      * rewrite firstn_skipn_2 by lia. simpl length. simpl Nat.eqb.
        rewrite be_uint_2. reflexivity.
      * assert (Hl : length (firstn 2 (skipn 22 contents)) <> 2).
        { rewrite length_firstn, length_skipn. lia. }
        apply Nat.eqb_neq in Hl. rewrite Hl. reflexivity.
    + destruct (byte_at contents 0x15 =? 0xC6)%N; [|reflexivity].
      unfold fbind, f_seek, flift, fret, struct_unpack_be. rewrite f_read_at.
      destruct (Nat.leb_spec 0x1A (length contents)) as [Hfull | Hcut].
      * rewrite firstn_skipn_4 by lia. simpl length. simpl Nat.eqb.
        rewrite be_uint_4. reflexivity.
      * assert (Hl : length (firstn 4 (skipn 22 contents)) <> 4).
        { rewrite length_firstn, length_skipn. lia. }
        apply Nat.eqb_neq in Hl. rewrite Hl. reflexivity.
Qed.

Lemma startswith_firstn (p s : bytes) (n : nat) :
  length p <= n -> bstartswith p (firstn n s) = bstartswith p s.
Proof.
  unfold bstartswith. revert s n; induction p as [|a p IH]; intros s n H.
  - reflexivity.
  - destruct n as [|n]; simpl in H; [lia|].
    destruct s as [|b s]; simpl; [reflexivity|].
    rewrite IH by lia. reflexivity.
Qed.

(** The [with] block, in terms of the header step. *)
Lemma read_record_cases (contents : bytes) :
  with_open contents read_record =
  if negb (bstartswith (blit "cc=4") contents) then Return (inl NotCc4)
  else
    match header_of contents with
    | Raise e => Raise e
    | Return None => Return (inl UnknownFormat)
    | Return (Some h) =>
        Return (inr (firstn (N.to_nat (body_length h))
                            (skipn (body_offset h) contents)))
    end.
Proof.
  assert (Hh : header_of contents =
    match parse_header (firstn READ_IN_SIZE contents) contents
            (0 + length (firstn READ_IN_SIZE contents)) with
    | Return (a, _) => Return a
    | Raise e => Raise e
    end) by reflexivity.
  rewrite Hh; clear Hh.
  unfold with_open, read_record, fbind at 1.
  rewrite f_read_at. change (skipn 0 contents) with contents.
  rewrite startswith_firstn by (simpl; unfold READ_IN_SIZE; lia).
  destruct (bstartswith (blit "cc=4") contents);
    cbv beta iota delta [negb]; [|reflexivity].
  unfold fbind at 1.
  destruct (parse_header (firstn READ_IN_SIZE contents) contents
              (0 + length (firstn READ_IN_SIZE contents)))
    as [[[h|] pos]|e]; reflexivity.
Qed.

Lemma extract_file_cases (os_sep : pystr) (proceed : bool)
      (file : cache_file) (contents : bytes) :
  data file = Some contents ->
  extract_file os_sep proceed file =
  if (MAX_FILE_SIZE_MB * 1024 * 1024 <? N.of_nat (length contents))%N
     && negb proceed
  then Declined
  else if negb (bstartswith (blit "cc=4") contents) then NotCc4
  else
    match header_of contents with
    | Raise e => Failed e
    | Return None => UnknownFormat
    | Return (Some h) =>
        let body := firstn (N.to_nat (body_length h))
                           (skipn (body_offset h) contents) in
        Written (detect_file_type body (default_name_of os_sep file)) body
    end.
Proof.
  intros Hdata. unfold extract_file. rewrite Hdata, read_record_cases.
  destruct (_ && negb proceed); [reflexivity|].
  destruct (negb (bstartswith (blit "cc=4") contents)); [reflexivity|].
  destruct (header_of contents) as [[h|]|e]; reflexivity.
Qed.






(** ** Reading the body *)

(** C2, as the code has it.  [f.read(body_length)] after the seek returns
    the bytes that are there, at most [body_length] of them, and never
    fails: a whole body when the file holds [body_offset + body_length]
    bytes, a shorter buffer when it does not (and the header asks for at
    least one byte).  A record cut to
    [body_offset + L - 1] bytes gives [L - 1] bytes. *)
Theorem read_body_available (contents : bytes) (h : RecordHeader) :
  let L := N.to_nat (body_length h) in
  exists body,
    with_open contents (read_body h) = Return body
    /\ body = firstn L (skipn (body_offset h) contents)
    /\ length body = Nat.min L (length contents - body_offset h)
    /\ (body_offset h + L <= length contents -> length body = L)
    /\ (0 < L -> length contents < body_offset h + L -> length body < L)
    /\ (0 < L -> length contents = body_offset h + L - 1 ->
        length body = L - 1).
Proof.
  intros L. exists (firstn L (skipn (body_offset h) contents)).
  split; [reflexivity|]. split; [reflexivity|].
  rewrite length_firstn, length_skipn.
  split; [reflexivity|].
  split; [|split]; intros; lia.
Qed.

(** C2 as stated does not hold: the record cut one byte short is extracted
    with a body of 15 bytes where the header says 16. *)
Lemma truncated_body_returned :
  length sample_truncated = 0x18 + 16 - 1
  /\ header_of sample_truncated = Return (Some (mkHeader 16 0x18))
  /\ with_open sample_truncated (read_body (mkHeader 16 0x18))
     = Return (blit "0123456789abcde")
  /\ extract_file (lit "/") true (file_x sample_truncated)
     = Written (lit "x.dat") (blit "0123456789abcde").
Proof.
  repeat split; vm_compute; reflexivity.
Qed.

Lemma read_body_available_witness :
  exists body,
    with_open sample_truncated (read_body (mkHeader 16 0x18)) = Return body
    /\ length body = 15.
Proof.
  destruct (read_body_available sample_truncated (mkHeader 16 0x18))
    as [body [Hrun [_ [_ [_ [_ Hcut]]]]]].
  exists body. split; [exact Hrun|].
  apply Hcut; vm_compute; lia.
Defined.

(** ** The content sniffer *)

(** C3.  The checks of [detect_file_type] in their order: the zip magic
    gives base + ".whl", then the two gzip magics give base + ".gz" and
    base + ".tgz", then a body starting with "Metadata-Version" goes to the
    metadata branch (whose name is used when it returns one), and a body
    matching none of them gets base + ".dat".  The three magic checks do
    not depend on the text check. *)
Theorem sniff_priority (body : bytes) (base : pystr) :
  (bstartswith magic_zip body = true ->
   detect_file_type body base = base ++ lit ".whl")
  /\ (bstartswith magic_zip body = false ->
      bstartswith magic_gzip body = true ->
      detect_file_type body base = base ++ lit ".gz")
  /\ (bstartswith magic_zip body = false ->
      bstartswith magic_gzip body = false ->
      bstartswith magic_gzip_named body = true ->
      detect_file_type body base = base ++ lit ".tgz")
  /\ (bstartswith magic_zip body = false ->
      bstartswith magic_gzip body = false ->
      bstartswith magic_gzip_named body = false ->
      bstartswith (blit "Metadata-Version") body = true ->
      detect_file_type body base =
      match metadata_branch body with
      | Return (Some final_name) => final_name
      | _ => base ++ lit ".dat"
      end)
  /\ (bstartswith magic_zip body = false ->
      bstartswith magic_gzip body = false ->
      bstartswith magic_gzip_named body = false ->
      bstartswith (blit "Metadata-Version") body = false ->
      detect_file_type body base = base ++ lit ".dat").
Proof.
  unfold detect_file_type, detect_try.
  split; [|split; [|split; [|split]]].
  - intros ->. reflexivity.
  - intros -> ->. reflexivity.
  - intros -> -> ->. reflexivity.
  - intros -> -> -> ->.
    destruct (metadata_branch body) as [[n|]|e]; reflexivity.
  - intros -> -> -> ->. reflexivity.
Qed.

Lemma sniff_priority_witness :
  detect_file_type (magic_gzip ++ blit "Metadata-Version") (lit "b")
  = lit "b.gz"
  /\ detect_file_type sample_metadata (lit "b")
     = lit "foo-1.0-py3.9.metadata.txt".
Proof.
  destruct (sniff_priority (magic_gzip ++ blit "Metadata-Version") (lit "b"))
    as [_ [Hgz _]].
  destruct (sniff_priority sample_metadata (lit "b"))
    as [_ [_ [_ [Hmeta _]]]].
  split.
  - apply Hgz; reflexivity.
  - rewrite Hmeta; reflexivity.
Defined.

(** The four prefixes exclude one another: a body starting with
    "Metadata-Version" starts with none of the magic numbers. *)
Lemma metadata_not_magic (body : bytes) :
  bstartswith (blit "Metadata-Version") body = true ->
  bstartswith magic_zip body = false
  /\ bstartswith magic_gzip body = false
  /\ bstartswith magic_gzip_named body = false.
Proof.
  intros H. apply bstartswith_iff in H. destruct H as [t ->].
  repeat split; reflexivity.
Qed.

Lemma detect_metadata_branch (body : bytes) (base : pystr) :
  bstartswith (blit "Metadata-Version") body = true ->
  detect_file_type body base =
  match metadata_branch body with
  | Return (Some final_name) => final_name
  | _ => base ++ lit ".dat"
  end.
Proof.
  intros Hmv. destruct (metadata_not_magic body Hmv) as [Hz [Hg Hn]].
  unfold detect_file_type, detect_try. rewrite Hz, Hg, Hn, Hmv.
  destruct (metadata_branch body) as [[n|]|e]; reflexivity.
Qed.

(** *** The loop over the lines *)

Lemma find_snoc (A : Type) (f : A -> bool) (l : list A) (a : A) :
  find f (l ++ [a]) =
  match find f l with
  | Some x => Some x
  | None => if f a then Some a else None
  end.
Proof.
  induction l as [|b l IH]; simpl; [reflexivity|].
  destruct (f b); [reflexivity | exact IH].
Qed.

Lemma last_with_cons (prefix line : pystr) (rest : list pystr) :
  last_with prefix (line :: rest) =
  match last_with prefix rest with
  | Some l => Some l
  | None => if sstartswith prefix line then Some line else None
  end.
Proof. unfold last_with. simpl rev. apply find_snoc. Qed.

Lemma name_line_exclusive (line : pystr) :
  sstartswith (lit "Name:") line = true ->
  sstartswith (lit "Version:") line = false
  /\ sstartswith classifier_prefix line = false.
Proof.
  intros H. apply sstartswith_iff in H. destruct H as [t ->].
  split; reflexivity.
Qed.

Lemma version_line_exclusive (line : pystr) :
  sstartswith (lit "Version:") line = true ->
  sstartswith (lit "Name:") line = false
  /\ sstartswith classifier_prefix line = false.
Proof.
  intros H. apply sstartswith_iff in H. destruct H as [t ->].
  split; reflexivity.
Qed.

Lemma scan_line_name (st : fields) (line : pystr) :
  sstartswith (lit "Name:") line = true ->
  scan_line st line =
  Return (mkFields (Some (field_after (lit "Name:") line))
                   (f_version st) (f_python_version st)).
Proof.
  intros H. unfold scan_line. rewrite H.
  apply sstartswith_iff in H. destruct H as [t ->]. reflexivity.
Qed.

Lemma scan_line_version (st : fields) (line : pystr) :
  sstartswith (lit "Version:") line = true ->
  scan_line st line =
  Return (mkFields (f_name st)
                   (Some (field_after (lit "Version:") line))
                   (f_python_version st)).
Proof.
  intros H. unfold scan_line.
  rewrite (proj1 (version_line_exclusive line H)), H.
  apply sstartswith_iff in H. destruct H as [t ->]. reflexivity.
Qed.

Lemma scan_line_classifier (st : fields) (line : pystr) :
  sstartswith (lit "Name:") line = false ->
  sstartswith (lit "Version:") line = false ->
  sstartswith classifier_prefix line = true ->
  scan_line st line =
  Return (mkFields (f_name st) (f_version st) (Some (tag_of line))).
Proof.
  intros Hn Hv Hc. unfold scan_line. rewrite Hn, Hv.
  fold classifier_prefix. rewrite Hc.
  unfold split, tag_of.
  rewrite index_last_nonempty by apply split_go_nonempty.
  reflexivity.
Qed.

Lemma scan_line_other (st : fields) (line : pystr) :
  sstartswith (lit "Name:") line = false ->
  sstartswith (lit "Version:") line = false ->
  sstartswith classifier_prefix line = false ->
  scan_line st line = Return st.
Proof.
  intros Hn Hv Hc. unfold scan_line. rewrite Hn, Hv.
  fold classifier_prefix. rewrite Hc. reflexivity.
Qed.

(** The loop never raises, and leaves in each field the value of the last
    line that carries it. *)
Lemma scan_lines_fields (lines : list pystr) :
  forall st, scan_lines st lines = Return (fields_after st lines).
Proof.
  induction lines as [|line rest IH]; intros st.
  - destruct st; reflexivity.
  - simpl scan_lines.
    unfold fields_after, metadata_name, metadata_version, metadata_tag.
    rewrite !last_with_cons.
    destruct (sstartswith (lit "Name:") line) eqn:Hn.
    { destruct (name_line_exclusive line Hn) as [Hv Hc].
      rewrite scan_line_name, Hv, Hc by exact Hn.
      simpl rbind. rewrite IH.
      unfold fields_after, metadata_name, metadata_version, metadata_tag.
      simpl.
      destruct (last_with (lit "Name:") rest),
               (last_with (lit "Version:") rest),
               (last_with classifier_prefix rest); reflexivity. }
    destruct (sstartswith (lit "Version:") line) eqn:Hv.
    { destruct (version_line_exclusive line Hv) as [_ Hc].
      rewrite scan_line_version, Hc by exact Hv.
      simpl rbind. rewrite IH.
      unfold fields_after, metadata_name, metadata_version, metadata_tag.
      simpl.
      destruct (last_with (lit "Name:") rest),
               (last_with (lit "Version:") rest),
               (last_with classifier_prefix rest); reflexivity. }
    destruct (sstartswith classifier_prefix line) eqn:Hc.
    { rewrite scan_line_classifier by assumption.
      simpl rbind. rewrite IH.
      unfold fields_after, metadata_name, metadata_version, metadata_tag.
      simpl.
      destruct (last_with (lit "Name:") rest),
               (last_with (lit "Version:") rest),
               (last_with classifier_prefix rest); reflexivity. }
    rewrite scan_line_other by assumption.
    simpl rbind. rewrite IH.
    unfold fields_after, metadata_name, metadata_version, metadata_tag.
    destruct (last_with (lit "Name:") rest),
             (last_with (lit "Version:") rest),
             (last_with classifier_prefix rest); reflexivity.
Qed.

Lemma metadata_branch_text (body : bytes) (text : pystr) :
  decode_utf8 body = Return text ->
  let lines := splitlines text in
  let name := metadata_name lines in
  let version := metadata_version lines in
  let tag := metadata_tag lines in
  metadata_branch body =
  if truthy name && truthy version && truthy tag then
    Return (Some (fmt name ++ lit "-" ++ fmt version ++ lit "-py"
                  ++ fmt tag ++ lit ".metadata.txt"))
  else if truthy name && truthy version then
    Return (Some (fmt name ++ lit "-" ++ fmt version
                  ++ lit "-py3-none-any.metadata.txt"))
  else Return None.
Proof.
  intros Hdec lines name version tag.
  unfold metadata_branch. rewrite Hdec. simpl rbind.
  rewrite scan_lines_fields. simpl rbind.
  unfold fields_after. simpl f_name. simpl f_version.
  simpl f_python_version.
  fold lines. fold name. fold version. fold tag.
  destruct name, version, tag; reflexivity.
Qed.

(** C4, as the code has it.  For a body that starts with
    "Metadata-Version": when it decodes as UTF-8, the name and the version
    are the trimmed text after "Name:" and "Version:" on the last line
    that starts so, the tag is the trimmed last "::" piece of the last
    classifier line; with a non-empty name and a non-empty version the
    file name is name-version-py{tag}.metadata.txt when the tag is there and
    not empty, and name-version-py3-none-any.metadata.txt otherwise; with
    the name or the version absent or empty, or a body that does not
    decode, it is base + ".dat". *)
Theorem metadata_filename (body : bytes) (base : pystr) :
  bstartswith (blit "Metadata-Version") body = true ->
  (forall text, decode_utf8 body = Return text ->
     let lines := splitlines text in
     let name := metadata_name lines in
     let version := metadata_version lines in
     let tag := metadata_tag lines in
     (truthy name = true -> truthy version = true -> truthy tag = true ->
      detect_file_type body base =
      fmt name ++ lit "-" ++ fmt version ++ lit "-py" ++ fmt tag
      ++ lit ".metadata.txt")
     /\ (truthy name = true -> truthy version = true ->
         truthy tag = false ->
         detect_file_type body base =
         fmt name ++ lit "-" ++ fmt version
         ++ lit "-py3-none-any.metadata.txt")
     /\ (truthy name = false \/ truthy version = false ->
         detect_file_type body base = base ++ lit ".dat"))
  /\ (forall e, decode_utf8 body = Raise e ->
      detect_file_type body base = base ++ lit ".dat").
Proof.
  intros Hmv.
  rewrite (detect_metadata_branch body base Hmv).
  split.
  - intros text Hdec lines name version tag.
    rewrite (metadata_branch_text body Hdec).
    fold lines. fold name. fold version. fold tag.
    split; [|split].
    + intros -> -> ->. reflexivity.
    + intros -> -> ->. reflexivity.
    + intros [-> | ->]; simpl; [reflexivity|].
      rewrite andb_false_r. reflexivity.
  - intros e He. unfold metadata_branch. rewrite He. reflexivity.
Qed.

Lemma metadata_filename_witness :
  detect_file_type sample_metadata (lit "b")
  = lit "foo-1.0-py3.9.metadata.txt"
  /\ detect_file_type sample_metadata_no_classifier (lit "b")
     = lit "foo-1.0-py3-none-any.metadata.txt".
Proof.
  split.
  - destruct (metadata_filename sample_metadata (lit "b") eq_refl)
      as [Hok _].
    destruct (Hok _ eq_refl) as [Hfull _].
    rewrite Hfull; reflexivity.
  - destruct (metadata_filename sample_metadata_no_classifier (lit "b")
                                eq_refl) as [Hok _].
    destruct (Hok _ eq_refl) as [_ [Hdefault _]].
    rewrite Hdefault; reflexivity.
Defined.

(** C4 as stated does not hold: this body decodes, and has a "Name:" line
    and a "Version:" line, yet the result is base + ".dat", because the
    name is empty. *)
Lemma empty_name_falls_back :
  bstartswith (blit "Metadata-Version") sample_metadata_no_name = true
  /\ (exists text,
        decode_utf8 sample_metadata_no_name = Return text
        /\ existsb (sstartswith (lit "Name:")) (splitlines text) = true
        /\ existsb (sstartswith (lit "Version:")) (splitlines text) = true)
  /\ detect_file_type sample_metadata_no_name (lit "base") = lit "base.dat".
Proof.
  split; [reflexivity|]. split; [|reflexivity].
  eexists. split; [reflexivity|]. split; reflexivity.
Qed.

(** ** Wheel archives *)

Lemma str_mem_In (s : pystr) (l : list pystr) :
  str_mem s l = true <-> In s l.
Proof.
  unfold str_mem. rewrite existsb_exists. split.
  - intros [x [Hin Heq]]. apply str_eqb_eq in Heq. now subst.
  - intros Hin. exists s. split; [exact Hin | now apply str_eqb_eq].
Qed.

Lemma set_of_In (s : pystr) (l : list pystr) :
  In s (set_of l) <-> In s l.
Proof.
  induction l as [|x l IH]; simpl; [tauto|].
  destruct (str_mem x l) eqn:Hm.
  - apply str_mem_In in Hm. rewrite IH. split; [tauto|].
    intros [-> | H]; assumption.
  - simpl. rewrite IH. tauto.
Qed.

Lemma set_of_nil (l : list pystr) : set_of l = [] -> l = [].
Proof.
  intros H. destruct l as [|x l]; [reflexivity|].
  assert (Hin : In x (set_of (x :: l))) by (apply set_of_In; now left).
  rewrite H in Hin. destruct Hin.
Qed.

Lemma set_pop_In (pick : nat) (s : list pystr) :
  s <> [] -> In (set_pop pick s) s.
Proof.
  intros Hne. unfold set_pop. apply nth_In.
  apply Nat.mod_upper_bound. destruct s; [congruence | simpl; lia].
Qed.

(** The folders are the first segments of the names that end in
    ".dist-info/WHEEL". *)
Lemma dist_info_folders_In (a : archive) (folder : pystr) :
  In folder (dist_info_folders a) <->
  exists name,
    In name (namelist a)
    /\ sendswith wheel_suffix name = true
    /\ first_segment name = folder.
Proof.
  unfold dist_info_folders. rewrite set_of_In, in_map_iff.
  split.
  - intros [name [Hseg Hin]]. apply filter_In in Hin.
    exists name. tauto.
  - intros [name [Hin [Hend Hseg]]]. exists name.
    split; [exact Hseg|]. apply filter_In. tauto.
Qed.


Lemma dist_info_folders_some (a : archive) :
  (exists name, In name (namelist a)
                /\ sendswith wheel_suffix name = true) ->
  dist_info_folders a <> [].
Proof.
  intros [name [Hin Hend]] Hnil.
  assert (Hf : In (first_segment name) (dist_info_folders a)).
  { apply dist_info_folders_In. exists name. auto. }
  rewrite Hnil in Hf. destruct Hf.
Qed.

Lemma archive_open_absent (a : archive) (name : pystr) :
  ~ In name (namelist a) -> archive_open a name = Raise (KeyError name).
Proof.
  intros Hnot. unfold archive_open.
  destruct (find _ (rev a)) as [e|] eqn:Hfind; [|reflexivity].
  apply find_some in Hfind. destruct Hfind as [Hin Heq].
  apply str_eqb_eq in Heq. exfalso. apply Hnot.
  apply in_rev in Hin. unfold namelist. rewrite <- Heq.
  now apply in_map.
Qed.

Lemma archive_open_present (a : archive) (name : pystr) (content : bytes) :
  archive_open a name = Return content -> In (name, content) a.
Proof.
  unfold archive_open.
  destruct (find _ (rev a)) as [[n c]|] eqn:Hfind; [|discriminate].
  intros H. injection H as ->.
  apply find_some in Hfind. destruct Hfind as [Hin Heq].
  apply str_eqb_eq in Heq. simpl in Heq. subst n. now apply in_rev.
Qed.

Lemma scan_wheel_cons (variable_name : pystr) (line_bytes : bytes)
      (rest : list bytes) :
  scan_wheel variable_name (line_bytes :: rest) =
  rbind (decode_utf8 line_bytes) (fun decoded =>
  let line := strip decoded in
  if sstartswith (lit "Tag:") line then
    Return (Some (variable_name ++ lit "-"
                  ++ strip (skipn 4 line) ++ lit ".whl"))
  else scan_wheel variable_name rest).
Proof. reflexivity. Qed.

(** The loop over the WHEEL file stops at the first line that, decoded and
    trimmed, starts with "Tag:". *)
Lemma scan_wheel_first_tag (variable_name : pystr)
      (before : list bytes) (line : bytes) (after : list bytes)
      (decoded : pystr) :
  Forall no_tag_line before ->
  decode_utf8 line = Return decoded ->
  sstartswith (lit "Tag:") (strip decoded) = true ->
  scan_wheel variable_name (before ++ line :: after) =
  Return (Some (variable_name ++ lit "-"
                ++ strip (skipn 4 (strip decoded)) ++ lit ".whl")).
Proof.
  intros Hbefore Hdec Htag.
  induction Hbefore as [|l before [s [Hs Hno]] _ IH]; simpl app.
  - rewrite scan_wheel_cons, Hdec. cbv beta iota zeta delta [rbind].
    rewrite Htag. reflexivity.
  - rewrite scan_wheel_cons, Hs. cbv beta iota zeta delta [rbind].
    rewrite Hno. exact IH.
Qed.


Lemma reconstruct_unfold (pick : nat) (a : archive) :
  dist_info_folders a <> [] ->
  let folder := set_pop pick (dist_info_folders a) in
  reconstruct_whl_filename pick a =
  rbind (archive_open a (folder ++ lit "/WHEEL")) (fun wheel_file =>
  scan_wheel (replace N.eqb (lit ".dist-info") (lit "") folder)
             (readlines wheel_file)).
Proof.
  intros Hne folder. unfold reconstruct_whl_filename.
  destruct (dist_info_folders a) as [|f rest] eqn:Hf; [congruence|].
  reflexivity.
Qed.


(** Removing every occurrence of a pattern that occurs at the end only
    strips that suffix. *)
Section ReplaceSuffix.
Variable A : Type.
Variable eqb : A -> A -> bool.
Hypothesis eqb_eq : forall a b, eqb a b = true <-> a = b.

Lemma replace_go_skip_all (old new s : list A) :
  replace_go eqb old new (length s) s = [].
Proof.
  induction s as [|c t IH]; [reflexivity | exact IH].
Qed.

Lemma replace_whole (old new : list A) :
  old <> [] -> replace eqb old new old = new.
Proof.
  intros Hne. destruct old as [|c t]; [congruence|].
  unfold replace. simpl replace_go.
  rewrite (proj2 (eqb_eq c c) eq_refl).
  assert (Hrefl : startswith eqb t t = true).
  { apply (@startswith_iff A eqb eqb_eq). exists []. now rewrite app_nil_r. }
  rewrite Hrefl. simpl andb. cbv iota.
  rewrite Nat.sub_0_r, replace_go_skip_all. apply app_nil_r.
Qed.

Lemma replace_suffix_only (old new stem : list A) :
  old <> [] ->
  (forall i, i < length stem ->
             startswith eqb old (skipn i (stem ++ old)) = false) ->
  replace eqb old new (stem ++ old) = stem ++ new.
Proof.
  intros Hne. induction stem as [|y stem IH]; intros Honly.
  - now apply replace_whole.
  - unfold replace. simpl app. simpl replace_go.
    pose proof (Honly 0 (Nat.lt_0_succ _)) as H0. simpl in H0.
    rewrite H0. f_equal. apply IH.
    intros i Hi. apply (Honly (S i)). simpl. lia.
Qed.
End ReplaceSuffix.

Lemma dist_info_suffix_stripped (stem : pystr) :
  suffix_only stem ->
  replace N.eqb (lit ".dist-info") (lit "") (stem ++ lit ".dist-info") = stem.
Proof.
  intros Honly.
  rewrite (@replace_suffix_only N N.eqb N.eqb_eq (lit ".dist-info") (lit "")
             stem); [apply app_nil_r | discriminate | exact Honly].
Qed.

(** The name built from the first "Tag:" line, for whichever folder is
    taken. *)
Lemma reconstruct_first_tag (pick : nat) (a : archive) (content : bytes)
      (before : list bytes) (line : bytes) (after : list bytes)
      (decoded : pystr) :
  dist_info_folders a <> [] ->
  let folder := set_pop pick (dist_info_folders a) in
  archive_open a (folder ++ lit "/WHEEL") = Return content ->
  readlines content = before ++ line :: after ->
  Forall no_tag_line before ->
  decode_utf8 line = Return decoded ->
  sstartswith (lit "Tag:") (strip decoded) = true ->
  reconstruct_whl_filename pick a =
  Return (Some (replace N.eqb (lit ".dist-info") (lit "") folder
                ++ lit "-" ++ strip (skipn 4 (strip decoded))
                ++ lit ".whl")).
Proof.
  intros Hne folder Hopen Hlines Hbefore Hdec Htag.
  rewrite (reconstruct_unfold pick a Hne). fold folder.
  rewrite Hopen. simpl rbind. rewrite Hlines.
  now apply scan_wheel_first_tag.
Qed.







(** *** Cutting a name at "/" *)

Section SplitAtChar.
Variable A : Type.
Variable eqb : A -> A -> bool.
Hypothesis eqb_eq : forall a b, eqb a b = true <-> a = b.
Variable c : A.

Lemma split_go_char_step (cur : list A) (x : A) (t : list A) :
  split_go eqb [c] 0 cur (x :: t) =
  if eqb c x then rev cur :: split_go eqb [c] 0 [] t
  else split_go eqb [c] 0 (x :: cur) t.
Proof.
  simpl. rewrite andb_true_r. reflexivity.
Qed.

(** The first piece holds no separator. *)
Lemma split_go_head_clean (s : list A) :
  forall cur,
    (forall x, In x cur -> eqb c x = false) ->
    match split_go eqb [c] 0 cur s with
    | p :: _ => forall x, In x p -> eqb c x = false
    | [] => True
    end.
Proof.
  induction s as [|y t IH]; intros cur Hcur.
  - simpl. intros x Hx. apply Hcur. now apply in_rev.
  - rewrite split_go_char_step. destruct (eqb c y) eqn:Hy.
    + intros x Hx. apply Hcur. now apply in_rev.
    + apply IH. intros x [<- | Hx]; [exact Hy | now apply Hcur].
Qed.

(** A separator after a clean prefix ends the piece there. *)
Lemma split_go_clean_prefix (p q : list A) :
  (forall x, In x p -> eqb c x = false) ->
  forall cur,
    split_go eqb [c] 0 cur (p ++ c :: q) =
    (rev cur ++ p) :: split_go eqb [c] 0 [] q.
Proof.
  induction p as [|y p IH]; intros Hp cur.
  - simpl app. rewrite split_go_char_step.
    rewrite (proj2 (eqb_eq c c) eq_refl), app_nil_r. reflexivity.
  - simpl app. rewrite split_go_char_step.
    rewrite (Hp y (or_introl eq_refl)).
    rewrite IH by (intros x Hx; apply Hp; now right).
    simpl rev. rewrite <- app_assoc. reflexivity.
Qed.

Lemma startswith_app_same (x p s : list A) :
  startswith eqb (x ++ p) (x ++ s) = startswith eqb p s.
Proof.
  induction x as [|a x IH]; simpl; [reflexivity|].
  now rewrite (proj2 (eqb_eq a a) eq_refl), IH.
Qed.
End SplitAtChar.

Lemma first_segment_clean (name : pystr) :
  forall x, In x (first_segment name) -> (47 =? x)%N = false.
Proof.
  unfold first_segment, split.
  pose proof (@split_go_head_clean N N.eqb 47%N name []) as H.
  change (lit "/") with [47%N].
  destruct (split_go N.eqb [47%N] 0 [] name) as [|seg rest].
  - intros x [].
  - apply H. intros x [].
Qed.

Lemma split_folder_wheel (folder : pystr) :
  (forall x, In x folder -> (47 =? x)%N = false) ->
  split N.eqb (lit "/") (folder ++ lit "/WHEEL") = [folder; lit "WHEEL"].
Proof.
  intros Hclean. unfold split.
  change (lit "/") with [47%N].
  change (lit "/WHEEL") with (47%N :: lit "WHEEL").
  rewrite (@split_go_clean_prefix N N.eqb N.eqb_eq 47%N folder
             (lit "WHEEL") Hclean).
  reflexivity.
Qed.

Lemma endswith_folder_wheel (folder : pystr) :
  sendswith wheel_suffix (folder ++ lit "/WHEEL")
  = sendswith (lit ".dist-info") folder.
Proof.
  unfold sendswith, endswith.
  change wheel_suffix with (lit ".dist-info" ++ lit "/WHEEL").
  rewrite !rev_app_distr.
  apply (@startswith_app_same N N.eqb N.eqb_eq).
Qed.

(** C10, as the code has it.  Let every entry name that ends in
    ".dist-info/WHEEL" be nested (three segments or more), and let there be
    one.  The folder taken is the first segment of such an entry, and the
    entry opened is [folder/WHEEL]: when the archive has no entry of that
    name the call raises [KeyError] for it, which is always so when the
    folder itself ends in ".dist-info"; when the archive does have an entry
    [folder/WHEEL], that entry is read as the WHEEL file. *)
Theorem nested_dist_info_opens_first_segment (pick : nat) (a : archive) :
  (exists name, In name (namelist a)
                /\ sendswith wheel_suffix name = true) ->
  (forall name, In name (namelist a) ->
                sendswith wheel_suffix name = true -> nested name) ->
  let folder := set_pop pick (dist_info_folders a) in
  (exists name, In name (namelist a)
                /\ sendswith wheel_suffix name = true
                /\ nested name
                /\ first_segment name = folder)
  /\ (~ In (folder ++ lit "/WHEEL") (namelist a) ->
      reconstruct_whl_filename pick a
      = Raise (KeyError (folder ++ lit "/WHEEL")))
  /\ (sendswith (lit ".dist-info") folder = true ->
      reconstruct_whl_filename pick a
      = Raise (KeyError (folder ++ lit "/WHEEL")))
  /\ (forall content,
        archive_open a (folder ++ lit "/WHEEL") = Return content ->
        reconstruct_whl_filename pick a =
        scan_wheel (replace N.eqb (lit ".dist-info") (lit "") folder)
                   (readlines content)).
Proof.
  intros Hsome Hnested folder.
  pose proof (dist_info_folders_some a Hsome) as Hne.
  pose proof (set_pop_In pick Hne) as Hin. fold folder in Hin.
  apply dist_info_folders_In in Hin.
  destruct Hin as [name [Hin [Hend Hseg]]].
  assert (Habsent : ~ In (folder ++ lit "/WHEEL") (namelist a) ->
                    reconstruct_whl_filename pick a
                    = Raise (KeyError (folder ++ lit "/WHEEL"))).
  { intros Hnot. rewrite (reconstruct_unfold pick a Hne). fold folder.
    now rewrite (archive_open_absent a _ Hnot). }
  split; [|split; [|split]].
  - exists name. auto.
  - exact Habsent.
  - intros Hfolder. apply Habsent. intros Hthere.
    assert (Hn : nested (folder ++ lit "/WHEEL")).
    { apply Hnested; [exact Hthere|].
      now rewrite endswith_folder_wheel. }
    unfold nested in Hn. rewrite split_folder_wheel in Hn.
    + simpl in Hn. lia.
    + rewrite <- Hseg. apply first_segment_clean.
  - intros content Hopen.
    rewrite (reconstruct_unfold pick a Hne). fold folder.
    now rewrite Hopen.
Qed.

Lemma nested_dist_info_opens_first_segment_witness :
  reconstruct_whl_filename 0 sample_wheel_nested
  = Raise (KeyError (lit "sub/WHEEL")).
Proof.
  assert (Hsome : exists name,
             In name (namelist sample_wheel_nested)
             /\ sendswith wheel_suffix name = true).
  { exists (lit "sub/pkg-1.0.dist-info/WHEEL"). split; [now left | reflexivity]. }
  assert (Hnested : forall name,
             In name (namelist sample_wheel_nested) ->
             sendswith wheel_suffix name = true -> nested name).
  { intros name [<- | []] _. unfold nested. vm_compute. lia. }
  destruct (nested_dist_info_opens_first_segment 0 sample_wheel_nested
              Hsome Hnested) as [_ [Habsent _]].
  apply Habsent. intros [H | []]. vm_compute in H. discriminate.
Defined.

(** C10 as stated does not hold: the only entry ending in
    ".dist-info/WHEEL" is nested under "sub", the archive also has
    "sub/WHEEL", and the call returns a file name built from it. *)
Lemma nested_with_sibling_returns_name :
  namelist sample_wheel_nested_sibling
  = [lit "sub/pkg-1.0.dist-info/WHEEL"; lit "sub/WHEEL"]
  /\ sendswith wheel_suffix (lit "sub/pkg-1.0.dist-info/WHEEL") = true
  /\ nested (lit "sub/pkg-1.0.dist-info/WHEEL")
  /\ sendswith wheel_suffix (lit "sub/WHEEL") = false
  /\ reconstruct_whl_filename 0 sample_wheel_nested_sibling
     = Return (Some (lit "sub-cp39.whl")).
Proof.
  split; [reflexivity|]. split; [reflexivity|].
  split; [unfold nested; vm_compute; lia|].
  split; reflexivity.
Qed.

(** ** The signature check and the file list *)

Lemma is_cachecontrol_v4_iff (file : cache_file) :
  is_cachecontrol_v4 file = true <->
  exists contents,
    data file = Some contents /\ firstn 5 contents = blit "cc=4,".
Proof.
  unfold is_cachecontrol_v4. destruct (data file) as [contents|].
  - unfold with_open. rewrite f_read_at.
    change (skipn 0 contents) with contents. rewrite bytes_eqb_eq.
    split.
    + intros H. now exists contents.
    + intros [c [Hc H]]. now injection Hc as ->.
  - split; [discriminate | intros [c [Hc _]]; discriminate].
Qed.

Lemma load_files_In (tree : list dir_entry) (file : cache_file) :
  In file (load_files tree) -> is_cachecontrol_v4 file = true.
Proof.
  unfold load_files. rewrite in_map_iff.
  intros [e [<- Hin]]. apply filter_In in Hin.
  destruct Hin as [_ Hok]. apply andb_true_iff in Hok. tauto.
Qed.

Lemma extract_all_from_In (os_sep : pystr) (proceed : bool)
      (abort_flag : nat -> bool) (files : list cache_file)
      (file : cache_file) :
  forall idx,
    In file (map fst (extract_all_from os_sep proceed abort_flag idx files))
    -> In file files.
Proof.
  induction files as [|f rest IH]; intros idx; simpl; [tauto|].
  destruct (abort_flag idx); simpl; [tauto|].
  intros [-> | H]; [now left | right; eapply IH; eassumption].
Qed.

Lemma extract_selected_In (os_sep : pystr) (proceed : bool)
      (files : list cache_file) (selection : option nat)
      (file : cache_file) :
  In file (map fst (extract_selected os_sep proceed files selection)) ->
  In file files.
Proof.
  unfold extract_selected. destruct selection as [i|]; simpl; [|tauto].
  destruct (nth_error files i) as [f|] eqn:Hnth; simpl; [|tauto].
  intros [<- | []]. eapply nth_error_In; eassumption.
Qed.

(** C6.  [is_cachecontrol_v4] is true exactly when the file can be read
    and its first five bytes are "cc=4,"; a file that cannot be opened
    gives [False]; and a file whose first five bytes differ is not put in
    the file list by [load_files], so neither [extract_all] nor
    [extract_selected] hands it to [extract_file]. *)
Theorem signature_gate :
  (forall path contents,
      is_cachecontrol_v4 (mkFile path (Some contents)) = true
      <-> firstn 5 contents = blit "cc=4,")
  /\ (forall path, is_cachecontrol_v4 (mkFile path None) = false)
  /\ (forall tree file contents,
        data file = Some contents ->
        firstn 5 contents <> blit "cc=4," ->
        is_cachecontrol_v4 file = false
        /\ ~ In file (load_files tree)
        /\ forall os_sep proceed abort_flag selection,
            ~ In file (map fst (extract_all os_sep proceed abort_flag
                                            (load_files tree)))
            /\ ~ In file (map fst (extract_selected os_sep proceed
                                     (load_files tree) selection))).
Proof.
  split; [|split].
  - intros path contents. rewrite is_cachecontrol_v4_iff. simpl. split.
    + intros [c [Hc H]]. now injection Hc as ->.
    + intros H. now exists contents.
  - reflexivity.
  - intros tree file contents Hdata Hdiff.
    assert (Hno : is_cachecontrol_v4 file = false).
    { destruct (is_cachecontrol_v4 file) eqn:Hv; [|reflexivity].
      apply is_cachecontrol_v4_iff in Hv. destruct Hv as [c [Hc H]].
      rewrite Hdata in Hc. injection Hc as <-. contradiction. }
    assert (Hout : ~ In file (load_files tree)).
    { intros Hin. apply load_files_In in Hin. congruence. }
    split; [exact Hno|]. split; [exact Hout|].
    intros os_sep proceed abort_flag selection. split; intros Hin.
    + apply Hout. eapply extract_all_from_In. exact Hin.
    + apply Hout. eapply extract_selected_In. exact Hin.
Qed.

Lemma signature_gate_witness :
  is_cachecontrol_v4 (file_x sample_other_signature) = false
  /\ ~ In (file_x sample_other_signature)
          (load_files [mkEntry (file_x sample_other_signature) true;
                       mkEntry (file_x sample_record) true]).
Proof.
  destruct signature_gate as [_ [_ Hgate]].
  assert (Hdiff : firstn 5 sample_other_signature <> blit "cc=4,")
    by (vm_compute; discriminate).
  destruct (Hgate [mkEntry (file_x sample_other_signature) true;
                   mkEntry (file_x sample_record) true]
                  (file_x sample_other_signature) sample_other_signature
                  eq_refl Hdiff) as [Hno [Hout _]].
  split; assumption.
Defined.

(** The check inside [extract_file] compares four bytes only: called on
    its own with a file that starts with "cc=4;" it goes on and writes the
    body. *)
Lemma extract_file_checks_four_bytes :
  is_cachecontrol_v4 (file_x sample_other_signature) = false
  /\ extract_file (lit "/") true (file_x sample_other_signature)
     = Written (lit "x.dat") [x2a].
Proof. split; reflexivity. Qed.

(** ** The base name *)

Lemma replace_char_absent (c : N) (new s : pystr) :
  (forall x, In x s -> (c =? x)%N = false) ->
  replace N.eqb [c] new s = s.
Proof.
  unfold replace. induction s as [|y s IH]; intros Hclean; [reflexivity|].
  simpl. rewrite (Hclean y (or_introl eq_refl)). simpl.
  rewrite IH; [reflexivity|]. intros x Hx. apply Hclean. now right.
Qed.

(** The base name is made from the last component alone, and is that
    component when it holds no separator. *)
Lemma default_name_is_basename (c : N) (dir : list pystr) (name : pystr)
      (contents : option bytes) :
  (forall x, In x name -> (c =? x)%N = false) ->
  default_name_of [c] (mkFile (dir ++ [name]) contents) = name.
Proof.
  intros Hclean. unfold default_name_of, path_name. simpl parts.
  rewrite last_last. now apply replace_char_absent.
Qed.

(** C9 on the code: two records named "x", one in directory "a" and one in
    directory "b", get the same base name "x" and so the same output
    name. *)
Theorem same_basename_same_output :
  parts file_a_x <> parts file_b_x
  /\ default_name_of (lit "/") file_a_x = lit "x"
  /\ default_name_of (lit "/") file_b_x = lit "x"
  /\ extract_file (lit "/") true file_a_x
     = Written (lit "x.dat") (blit "0123456789abcdef")
  /\ extract_file (lit "/") true file_b_x
     = Written (lit "x.dat") (blit "0123456789abcdef").
Proof.
  split; [vm_compute; discriminate|].
  repeat split; reflexivity.
Qed.

(** * Further properties of the code *)

Unset Implicit Arguments.

(** ** [extract_file]: what is written *)









Lemma Written_inj (n1 n2 : pystr) (b1 b2 : bytes) :
  Written n1 b1 = Written n2 b2 -> n1 = n2 /\ b1 = b2.
Proof. intros H. now inversion H. Qed.

(** X3.  Whenever [extract_file] writes a file, the record starts with
    "cc=4" and has indicator C5 or C6; the body is the slice of the record
    that starts at 0x18 (0x1A) and is as long as the length field says or
    as the record allows, so shorter than 65536 bytes (2^32 bytes); and the
    name is what [detect_file_type] gives for that body. *)
Theorem extract_file_written_inv (os_sep : pystr) (proceed : bool)
        (file : cache_file) (final_name : pystr) (body : bytes) :
  extract_file os_sep proceed file = Written final_name body ->
  exists contents,
    data file = Some contents
    /\ bstartswith (blit "cc=4") contents = true
    /\ final_name = detect_file_type body (default_name_of os_sep file)
    /\ ((byte_at contents 0x15 = 0xC5%N
         /\ 0x18 <= length contents
         /\ body = firstn (N.to_nat (256 * byte_at contents 0x16
                                     + byte_at contents 0x17))
                          (skipn 0x18 contents)
         /\ (N.of_nat (length body) < 65536)%N)
        \/ (byte_at contents 0x15 = 0xC6%N
            /\ 0x1A <= length contents
            /\ body = firstn (N.to_nat
                        (16777216 * byte_at contents 0x16
                         + 65536 * byte_at contents 0x17
                         + 256 * byte_at contents 0x18
                         + byte_at contents 0x19))
                             (skipn 0x1A contents)
            /\ (N.of_nat (length body) < 4294967296)%N)).
Proof.
  intros Hw. destruct (data file) as [contents|] eqn:Hdata.
  2:{ unfold extract_file in Hw. rewrite Hdata in Hw. discriminate. }
  exists contents. split; [reflexivity|].
  rewrite (extract_file_cases os_sep proceed file Hdata) in Hw.
  destruct (_ && negb proceed); [discriminate|].
  destruct (bstartswith (blit "cc=4") contents); [|discriminate].
  split; [reflexivity|]. simpl negb in Hw. cbv iota in Hw.
  rewrite header_of_cases in Hw.
  pose proof (Byte.to_N_bounded (nth 0x16 contents x00)) as B16.
  pose proof (Byte.to_N_bounded (nth 0x17 contents x00)) as B17.
  pose proof (Byte.to_N_bounded (nth 0x18 contents x00)) as B18.
  pose proof (Byte.to_N_bounded (nth 0x19 contents x00)) as B19.
  fold (byte_at contents 0x16) in B16. fold (byte_at contents 0x17) in B17.
  fold (byte_at contents 0x18) in B18. fold (byte_at contents 0x19) in B19.
  destruct (length contents <=? 0x15); [discriminate|].
  destruct (byte_at contents 0x15 =? 0xC5)%N eqn:H5.
  - apply N.eqb_eq in H5.
    destruct (Nat.leb_spec 0x18 (length contents)) as [Hfull|_];
      [|discriminate].
    cbv zeta in Hw. cbn [body_length body_offset] in Hw.
    apply Written_inj in Hw. destruct Hw as [Hname Hbody].
    split; [now rewrite <- Hbody|]. left.
    split; [exact H5|]. split; [exact Hfull|]. split; [now symmetry|].
    rewrite <- Hbody, length_firstn. lia.
  - destruct (byte_at contents 0x15 =? 0xC6)%N eqn:H6; [|discriminate].
    apply N.eqb_eq in H6.
    destruct (Nat.leb_spec 0x1A (length contents)) as [Hfull|_];
      [|discriminate].
    cbv zeta in Hw. cbn [body_length body_offset] in Hw.
    apply Written_inj in Hw. destruct Hw as [Hname Hbody].
    split; [now rewrite <- Hbody|]. right.
    split; [exact H6|]. split; [exact Hfull|]. split; [now symmetry|].
    rewrite <- Hbody, length_firstn. lia.
Qed.

Lemma extract_file_written_inv_witness :
  exists contents,
    data (file_x sample_record) = Some contents
    /\ bstartswith (blit "cc=4") contents = true.
Proof.
  destruct (extract_file_written_inv (lit "/") true (file_x sample_record)
              (lit "x.dat") (blit "0123456789abcdef") eq_refl)
    as [contents [Hdata [Hsig _]]].
  exists contents. split; assumption.
Defined.

(** ** The file list and [extract_file] together *)

Lemma signature_prefix (contents : bytes) :
  firstn 5 contents = blit "cc=4," ->
  5 <= length contents /\ bstartswith (blit "cc=4") contents = true.
Proof.
  intros H5. split.
  - apply (f_equal (@length byte)) in H5. rewrite length_firstn in H5.
    change (length (blit "cc=4,")) with 5 in H5. lia.
  - rewrite <- (firstn_skipn 5 contents), H5. reflexivity.
Qed.



(** X5.  [load_files] lists exactly the entries that are regular files,
    can be read, and begin with the five bytes "cc=4,": no directory, no
    unreadable file and no file of fewer than five bytes is listed, and no
    file with the signature is left out. *)
Theorem load_files_exact (tree : list dir_entry) (file : cache_file) :
  In file (load_files tree) <->
  exists e contents,
    In e tree /\ entry e = file /\ is_file e = true
    /\ data file = Some contents
    /\ 5 <= length contents
    /\ firstn 5 contents = blit "cc=4,".
Proof.
  unfold load_files. rewrite in_map_iff. split.
  - intros [e [He Hin]]. apply filter_In in Hin. destruct Hin as [Hin Hok].
    apply andb_true_iff in Hok. destruct Hok as [Hfile Hsig].
    rewrite He in Hsig. apply is_cachecontrol_v4_iff in Hsig.
    destruct Hsig as [contents [Hdata H5]].
    exists e, contents. pose proof (signature_prefix contents H5). tauto.
  - intros [e [contents [Hin [He [Hfile [Hdata [_ H5]]]]]]].
    exists e. split; [exact He|]. apply filter_In. split; [exact Hin|].
    rewrite Hfile, He. simpl. apply is_cachecontrol_v4_iff.
    now exists contents.
Qed.

(** ** [detect_file_type]: the names it gives *)

Section PrefixLength.
Variable A : Type.
Variable eqb : A -> A -> bool.

Lemma startswith_short (p s : list A) :
  length s < length p -> startswith eqb p s = false.
Proof.
  revert s; induction p as [|a p IH]; intros s H; simpl in H; [lia|].
  destruct s as [|b s]; [reflexivity|]. simpl in *.
  rewrite IH by lia. apply andb_false_r.
Qed.

Lemma startswith_app_long (p s t : list A) :
  length p <= length s ->
  startswith eqb p (s ++ t) = startswith eqb p s.
Proof.
  revert s; induction p as [|a p IH]; intros s H; [reflexivity|].
  destruct s as [|b s]; simpl in *; [lia|].
  rewrite IH by lia. reflexivity.
Qed.
End PrefixLength.

(** The end of [front ++ tail] is the end of [tail], for a suffix no longer
    than [tail]. *)
Lemma sendswith_app (suffix front tail : pystr) :
  length suffix <= length tail ->
  sendswith suffix (front ++ tail) = sendswith suffix tail.
Proof.
  intros H. unfold sendswith, endswith. rewrite rev_app_distr.
  apply startswith_app_long. now rewrite !length_rev.
Qed.

(** X6.  A body of fewer than four bytes, the empty body among them, is
    named base + ".dat". *)
Theorem detect_file_type_short_body (body : bytes) (base : pystr) :
  length body < 4 ->
  detect_file_type body base = base ++ lit ".dat".
Proof.
  intros H. unfold detect_file_type, detect_try, bstartswith.
  rewrite !startswith_short by (simpl; lia). reflexivity.
Qed.

Lemma detect_file_type_short_body_witness :
  detect_file_type [] (lit "x") = lit "x.dat".
Proof.
  apply (detect_file_type_short_body [] (lit "x")). simpl. lia.
Defined.

Lemma sendswith_self_app (ext front : pystr) :
  sendswith ext (front ++ ext) = true.
Proof.
  rewrite sendswith_app by lia. unfold sendswith, endswith.
  apply (startswith_iff N.eqb N.eqb_eq). exists []. now rewrite app_nil_r.
Qed.

Lemma sendswith_snoc (suffix name : pystr) (a b : N) :
  sendswith (suffix ++ [a]) (name ++ [b])
  = (a =? b)%N && sendswith suffix name.
Proof.
  unfold sendswith, endswith. rewrite !rev_app_distr. reflexivity.
Qed.

(** The shapes of the names [detect_file_type] gives. *)
Lemma detect_file_type_shape (body : bytes) (base : pystr) :
  (bstartswith magic_zip body = true
   /\ detect_file_type body base = base ++ lit ".whl")
  \/ (bstartswith magic_zip body = false
      /\ exists front,
           detect_file_type body base = front ++ lit ".gz"
           \/ detect_file_type body base = front ++ lit ".tgz"
           \/ detect_file_type body base = front ++ lit ".metadata.txt"
           \/ detect_file_type body base = front ++ lit ".dat").
Proof.
  unfold detect_file_type, detect_try.
  destruct (bstartswith magic_zip body); [left; split; reflexivity|].
  right. split; [reflexivity|].
  destruct (bstartswith magic_gzip body); [exists base; now left|].
  destruct (bstartswith magic_gzip_named body);
    [exists base; now right; left|].
  destruct (bstartswith (blit "Metadata-Version") body);
    [|exists base; now right; right; right].
  unfold metadata_branch.
  destruct (decode_utf8 body) as [text|e];
    [|exists base; now right; right; right].
  cbv beta iota delta [rbind]. rewrite scan_lines_fields.
  cbv beta iota zeta delta [rbind].
  set (st := fields_after (mkFields None None None) (splitlines text)).
  destruct (truthy (f_name st) && truthy (f_version st)
            && truthy (f_python_version st)).
  { exists (fmt (f_name st) ++ lit "-" ++ fmt (f_version st) ++ lit "-py"
            ++ fmt (f_python_version st)).
    right; right; left. now rewrite <- !app_assoc. }
  destruct (truthy (f_name st) && truthy (f_version st));
    [|exists base; now right; right; right].
  exists (fmt (f_name st) ++ lit "-" ++ fmt (f_version st)
          ++ lit "-py3-none-any").
  right; right; left. now rewrite <- !app_assoc.
Qed.

(** X7.  The name ends in ".whl" exactly when the body starts with the zip
    magic number, whatever the base name and whatever a metadata document
    says; and every name ends in one of ".whl", ".gz", ".tgz",
    ".metadata.txt" and ".dat". *)
Theorem detect_file_type_suffix (body : bytes) (base : pystr) :
  (sendswith (lit ".whl") (detect_file_type body base) = true
   <-> bstartswith magic_zip body = true)
  /\ (sendswith (lit ".whl") (detect_file_type body base)
      || sendswith (lit ".gz") (detect_file_type body base)
      || sendswith (lit ".tgz") (detect_file_type body base)
      || sendswith (lit ".metadata.txt") (detect_file_type body base)
      || sendswith (lit ".dat") (detect_file_type body base) = true).
Proof.
  assert (Hother : forall front ext,
             length (lit ".whl") <= length ext ->
             sendswith (lit ".whl") ext = false ->
             sendswith (lit ".whl") (front ++ ext) = true <-> false = true).
  { intros front ext Hlen Hext. rewrite sendswith_app, Hext by exact Hlen.
    tauto. }
  destruct (detect_file_type_shape body base)
    as [[Hz ->] | [Hz [front [-> | [-> | [-> | ->]]]]]]; rewrite Hz.
  - rewrite !sendswith_self_app. split; [tauto | reflexivity].
  - split.
    + change (lit ".whl") with (lit ".wh" ++ [108%N]).
      change (lit ".gz") with (lit ".g" ++ [122%N]).
      rewrite app_assoc, sendswith_snoc. simpl. split; discriminate.
    + rewrite sendswith_self_app, ?orb_true_r. reflexivity.
  - split; [apply Hother; [simpl; lia | reflexivity]|].
    rewrite sendswith_self_app, ?orb_true_r. reflexivity.
  - split; [apply Hother; [simpl; lia | reflexivity]|].
    rewrite sendswith_self_app, ?orb_true_r. reflexivity.
  - split; [apply Hother; [simpl; lia | reflexivity]|].
    rewrite sendswith_self_app, ?orb_true_r. reflexivity.
Qed.

Lemma detect_file_type_suffix_witness :
  sendswith (lit ".whl")
            (detect_file_type (magic_zip ++ blit "rest") (lit "x")) = true.
Proof.
  apply (proj1 (detect_file_type_suffix (magic_zip ++ blit "rest")
                                        (lit "x"))).
  reflexivity.
Defined.

(** X8.  The name made from a metadata document does not depend on the
    base name: for a body that starts with "Metadata-Version", either every
    base gives base + ".dat", or every base gives one and the same name. *)
Theorem metadata_name_ignores_base (body : bytes) :
  bstartswith (blit "Metadata-Version") body = true ->
  (forall base, detect_file_type body base = base ++ lit ".dat")
  \/ (exists final_name,
        forall base, detect_file_type body base = final_name).
Proof.
  intros Hmv. destruct (metadata_branch body) as [[n|]|e] eqn:Hb.
  - right. exists n. intros base.
    now rewrite (detect_metadata_branch body base Hmv), Hb.
  - left. intros base.
    now rewrite (detect_metadata_branch body base Hmv), Hb.
  - left. intros base.
    now rewrite (detect_metadata_branch body base Hmv), Hb.
Qed.

Lemma metadata_name_ignores_base_witness :
  detect_file_type sample_metadata (lit "one")
  = detect_file_type sample_metadata (lit "two").
Proof.
  destruct (metadata_name_ignores_base sample_metadata eq_refl)
    as [Hdat | [n Hn]].
  - specialize (Hdat (lit "one")). vm_compute in Hdat. discriminate.
  - now rewrite !Hn.
Defined.

(** ** The base name *)

Lemma replace_char_In (c : N) (new s : pystr) (x : N) :
  In x (replace N.eqb [c] new s) -> In x new \/ (In x s /\ x <> c).
Proof.
  unfold replace. induction s as [|y s IH]; simpl; [tauto|].
  rewrite andb_true_r. destruct (c =? y)%N eqn:Hy.
  - rewrite in_app_iff. intros [H | H]; [now left|].
    destruct (IH H) as [H' | [H' Hne]]; [now left | right; tauto].
  - apply N.eqb_neq in Hy. intros [<- | H].
    + right. split; [now left | congruence].
    + destruct (IH H) as [H' | [H' Hne]]; [now left | right; tauto].
Qed.

(** X9.  With a one-character separator other than "-", the base name
    holds no separator. *)
Theorem default_name_no_separator (c : N) (file : cache_file) (x : N) :
  c <> 45%N ->
  In x (default_name_of [c] file) -> x <> c.
Proof.
  intros Hc Hin. unfold default_name_of in Hin.
  apply replace_char_In in Hin. destruct Hin as [[Hx | []] | [_ Hne]].
  - intros Heq. apply Hc. rewrite <- Heq. now symmetry.
  - exact Hne.
Qed.

Lemma default_name_no_separator_witness :
  default_name_of (lit "/") (mkFile [lit "a/b"] None) = lit "a-b"
  /\ 45%N <> 47%N.
Proof.
  split; [reflexivity|].
  apply (default_name_no_separator 47%N (mkFile [lit "a/b"] None) 45%N);
    [discriminate | right; left; reflexivity].
Defined.

(** ** [reconstruct_whl_filename]: results and failures *)

Lemma scan_wheel_inv (variable_name : pystr) (lines : list bytes)
      (final_name : pystr) :
  scan_wheel variable_name lines = Return (Some final_name) ->
  exists line decoded,
    In line lines
    /\ decode_utf8 line = Return decoded
    /\ sstartswith (lit "Tag:") (strip decoded) = true
    /\ final_name = variable_name ++ lit "-"
                    ++ strip (skipn 4 (strip decoded)) ++ lit ".whl".
Proof.
  induction lines as [|l lines IH]; [discriminate|].
  rewrite scan_wheel_cons.
  destruct (decode_utf8 l) as [decoded|e] eqn:Hdec; [|discriminate].
  cbv beta iota zeta delta [rbind].
  destruct (sstartswith (lit "Tag:") (strip decoded)) eqn:Htag.
  - intros H. exists l, decoded. split; [now left|].
    split; [exact Hdec|]. split; [exact Htag|]. congruence.
  - intros H. destruct (IH H) as [line [d [Hin Hrest]]].
    exists line, d. split; [now right | exact Hrest].
Qed.

(** X10.  A name returned by [reconstruct_whl_filename] always ends in
    ".whl" and is {folder without ".dist-info"}-{tag}.whl, where [folder]
    is the first segment of an entry name that ends in ".dist-info/WHEEL",
    the archive has the entry [folder/WHEEL], and the tag is the trimmed
    rest of a line of that entry that starts with "Tag:". *)
Theorem reconstruct_result_shape (pick : nat) (a : archive)
        (final_name : pystr) :
  reconstruct_whl_filename pick a = Return (Some final_name) ->
  sendswith (lit ".whl") final_name = true
  /\ exists name content line decoded,
       In name (namelist a)
       /\ sendswith wheel_suffix name = true
       /\ In (first_segment name ++ lit "/WHEEL", content) a
       /\ In line (readlines content)
       /\ decode_utf8 line = Return decoded
       /\ sstartswith (lit "Tag:") (strip decoded) = true
       /\ final_name =
          replace N.eqb (lit ".dist-info") (lit "") (first_segment name)
          ++ lit "-" ++ strip (skipn 4 (strip decoded)) ++ lit ".whl".
Proof.
  intros Hret.
  destruct (dist_info_folders a) as [|f rest] eqn:Hf.
  { unfold reconstruct_whl_filename in Hret. rewrite Hf in Hret.
    discriminate. }
  assert (Hne : dist_info_folders a <> []) by (rewrite Hf; discriminate).
  rewrite (reconstruct_unfold pick a Hne) in Hret.
  pose proof (set_pop_In pick Hne) as Hin.
  apply dist_info_folders_In in Hin.
  destruct Hin as [name [Hin [Hend Hseg]]].
  rewrite <- Hseg in Hret.
  destruct (archive_open a (first_segment name ++ lit "/WHEEL"))
    as [content|e] eqn:Hopen; [|discriminate].
  apply archive_open_present in Hopen.
  cbv beta iota delta [rbind] in Hret.
  apply scan_wheel_inv in Hret.
  destruct Hret as [line [decoded [Hline [Hdec [Htag Hname]]]]].
  split.
  - rewrite Hname, !app_assoc. apply sendswith_self_app.
  - exists name, content, line, decoded. tauto.
Qed.

Lemma reconstruct_result_shape_witness :
  sendswith (lit ".whl") (lit "pkg-1.0-py3-none-any.whl") = true.
Proof.
  exact (proj1 (reconstruct_result_shape 0 sample_wheel
                  (lit "pkg-1.0-py3-none-any.whl") eq_refl)).
Defined.

Lemma scan_wheel_bad_line (variable_name : pystr) (before : list bytes)
      (bad : bytes) (after : list bytes) :
  Forall no_tag_line before ->
  utf8_code_points bad = None ->
  scan_wheel variable_name (before ++ bad :: after)
  = Raise UnicodeDecodeError.
Proof.
  intros Hbefore Hbad.
  induction Hbefore as [|l before [s [Hs Hno]] _ IH]; simpl app.
  - rewrite scan_wheel_cons. unfold decode_utf8. now rewrite Hbad.
  - rewrite scan_wheel_cons, Hs. cbv beta iota zeta delta [rbind].
    rewrite Hno. exact IH.
Qed.

(** X11.  A line of the WHEEL file that is not valid UTF-8 and comes
    before any "Tag:" line makes the call raise [UnicodeDecodeError], also
    when a "Tag:" line follows. *)
Theorem reconstruct_undecodable_line (pick : nat) (a : archive)
        (content : bytes) (before : list bytes) (bad : bytes)
        (after : list bytes) :
  dist_info_folders a <> [] ->
  archive_open a (set_pop pick (dist_info_folders a) ++ lit "/WHEEL")
  = Return content ->
  readlines content = before ++ bad :: after ->
  Forall no_tag_line before ->
  utf8_code_points bad = None ->
  reconstruct_whl_filename pick a = Raise UnicodeDecodeError.
Proof.
  intros Hne Hopen Hlines Hbefore Hbad.
  rewrite (reconstruct_unfold pick a Hne), Hopen.
  cbv beta iota delta [rbind]. rewrite Hlines.
  now apply scan_wheel_bad_line.
Qed.

Lemma reconstruct_undecodable_line_witness :
  reconstruct_whl_filename 0 sample_wheel_bad_line
  = Raise UnicodeDecodeError.
Proof.
  assert (Hne : dist_info_folders sample_wheel_bad_line <> [])
    by (vm_compute; discriminate).
  exact (reconstruct_undecodable_line 0 sample_wheel_bad_line _ []
           [xff; x0a] [blit "Tag: py3-none-any
"] Hne eq_refl eq_refl (Forall_nil _) eq_refl).
Defined.

(** ** The loop of [extract_all] *)

Lemma extract_all_from_prefix (os_sep : pystr) (proceed : bool)
      (abort_flag : nat -> bool) (files : list cache_file) :
  forall idx,
  exists n,
    n <= length files
    /\ extract_all_from os_sep proceed abort_flag idx files
       = map (fun file => (file, extract_file os_sep proceed file))
             (firstn n files)
    /\ (forall i, i < n -> abort_flag (idx + i) = false)
    /\ (n < length files -> abort_flag (idx + n) = true).
Proof.
  induction files as [|file rest IH]; intros idx.
  - exists 0. simpl.
    split; [lia|]. split; [reflexivity|]. split; intros; lia.
  - simpl. destruct (abort_flag idx) eqn:Hflag.
    + exists 0. simpl.
      split; [lia|]. split; [reflexivity|]. split.
      * intros i Hi. lia.
      * intros _. now rewrite Nat.add_0_r.
    + destruct (IH (S idx)) as [n [Hn [Hrun [Hbefore Hstop]]]].
      exists (S n). simpl.
      split; [lia|]. split; [now rewrite Hrun|]. split.
      * intros [|i] Hi; [now rewrite Nat.add_0_r|].
        rewrite Nat.add_succ_r. apply Hbefore. lia.
      * intros Hlt. rewrite Nat.add_succ_r. apply Hstop. lia.
Qed.

(** X12.  [extract_all] hands the files of the list to [extract_file] in
    order, each once, up to the first index at which it finds the abort
    flag set: the files handled are a prefix of the list, the whole list
    when the flag is never set. *)
Theorem extract_all_prefix (os_sep : pystr) (proceed : bool)
        (abort_flag : nat -> bool) (file_list : list cache_file) :
  exists n,
    n <= length file_list
    /\ extract_all os_sep proceed abort_flag file_list
       = map (fun file => (file, extract_file os_sep proceed file))
             (firstn n file_list)
    /\ (forall i, i < n -> abort_flag i = false)
    /\ (n < length file_list -> abort_flag n = true)
    /\ ((forall i, abort_flag i = false) -> n = length file_list).
Proof.
  destruct (extract_all_from_prefix os_sep proceed abort_flag file_list 0)
    as [n [Hn [Hrun [Hbefore Hstop]]]].
  exists n. split; [exact Hn|]. split; [exact Hrun|].
  split; [exact Hbefore|]. split; [exact Hstop|].
  intros Hnever. destruct (Nat.eq_dec n (length file_list)) as [|Hne];
    [assumption|].
  assert (Hlt : n < length file_list) by lia.
  specialize (Hstop Hlt). simpl in Hstop. rewrite Hnever in Hstop.
  discriminate.
Qed.

(** ** [center_window] *)

(** X13.  The window is centred to within one pixel each way: the margin
    left of it and the margin right of it differ by at most one, and so do
    the margins above and below. *)
Theorem center_window_margins (screen_width screen_height width height : Z) :
  let '(x, y) := center_window screen_width screen_height width height in
  (-1 <= (screen_width - width - x) - x <= 1)%Z
  /\ (-1 <= (screen_height - height - y) - y <= 1)%Z.
Proof.
  unfold center_window. cbv zeta.
  pose proof (Z.div_mod screen_width 2 ltac:(lia)).
  pose proof (Z.div_mod screen_height 2 ltac:(lia)).
  pose proof (Z.div_mod width 2 ltac:(lia)).
  pose proof (Z.div_mod height 2 ltac:(lia)).
  pose proof (Z.mod_pos_bound screen_width 2 ltac:(lia)).
  pose proof (Z.mod_pos_bound screen_height 2 ltac:(lia)).
  pose proof (Z.mod_pos_bound width 2 ltac:(lia)).
  pose proof (Z.mod_pos_bound height 2 ltac:(lia)).
  lia.
Qed.

(** ** Text made of plain ASCII *)

Lemma plain_byte_facts (b : byte) :
  plain_byte b = true ->
  (Byte.to_N b <? 0x80)%N = true
  /\ is_space (Byte.to_N b) = false
  /\ is_linebreak (Byte.to_N b) = false
  /\ Byte.eqb b x0a = false.
Proof.
  intros H. destruct b; vm_compute in H; try discriminate H;
    repeat split; reflexivity.
Qed.

Lemma utf8_ascii (bs : bytes) :
  forallb (fun b => (Byte.to_N b <? 0x80)%N) bs = true ->
  utf8_code_points bs = Some (ascii_text bs).
Proof.
  induction bs as [|b bs IH]; intros H; [reflexivity|].
  simpl in H. apply andb_true_iff in H. destruct H as [Hb Hbs].
  cbn [utf8_code_points]. cbv zeta. rewrite Hb, (IH Hbs). reflexivity.
Qed.

Lemma plain_is_ascii (bs : bytes) :
  plain bs = true ->
  forallb (fun b => (Byte.to_N b <? 0x80)%N) bs = true.
Proof.
  unfold plain. rewrite !forallb_forall. intros H b Hb.
  now apply plain_byte_facts, H.
Qed.

Lemma dropwhile_all (A : Type) (f : A -> bool) (ws rest : list A) :
  forallb f ws = true -> dropwhile f (ws ++ rest) = dropwhile f rest.
Proof.
  induction ws as [|w ws IH]; intros H; [reflexivity|].
  simpl in H. apply andb_true_iff in H. destruct H as [Hw Hws].
  simpl. rewrite Hw. now apply IH.
Qed.

Lemma dropwhile_none (A : Type) (f : A -> bool) (s rest : list A) :
  s <> [] -> forallb (fun a => negb (f a)) s = true ->
  dropwhile f (s ++ rest) = s ++ rest.
Proof.
  intros Hne H. destruct s as [|a s]; [congruence|].
  simpl in H. apply andb_true_iff in H. destruct H as [Ha _].
  simpl. apply negb_true_iff in Ha. now rewrite Ha.
Qed.

(** Trimming removes the white space around a core that holds none. *)
Lemma strip_around (ws1 core ws2 : pystr) :
  forallb is_space ws1 = true ->
  forallb is_space ws2 = true ->
  core <> [] ->
  forallb (fun c => negb (is_space c)) core = true ->
  strip (ws1 ++ core ++ ws2) = core.
Proof.
  intros H1 H2 Hne Hcore. unfold strip.
  rewrite dropwhile_all by exact H1.
  rewrite dropwhile_none by assumption.
  rewrite rev_app_distr, dropwhile_all
    by (rewrite forallb_forall in *; intros x Hx; apply H2;
        now apply in_rev).
  rewrite <- (app_nil_r (rev core)), dropwhile_none.
  - rewrite app_nil_r. apply rev_involutive.
  - intros Hnil. apply Hne. rewrite <- (rev_involutive core), Hnil.
    reflexivity.
  - rewrite forallb_forall in *. intros x Hx. apply Hcore.
    now apply in_rev.
Qed.

Lemma plain_text_no_space (bs : bytes) :
  plain bs = true ->
  forallb (fun c => negb (is_space c)) (ascii_text bs) = true.
Proof.
  unfold plain, ascii_text. rewrite !forallb_forall. intros H c Hc.
  apply in_map_iff in Hc. destruct Hc as [b [<- Hb]].
  apply negb_true_iff. now apply plain_byte_facts, H.
Qed.

Lemma plain_text_no_linebreak (bs : bytes) :
  plain bs = true ->
  forallb (fun c => negb (is_linebreak c)) (ascii_text bs) = true.
Proof.
  unfold plain, ascii_text. rewrite !forallb_forall. intros H c Hc.
  apply in_map_iff in Hc. destruct Hc as [b [<- Hb]].
  apply negb_true_iff. now apply plain_byte_facts, H.
Qed.

Lemma ascii_text_nonempty (bs : bytes) : bs <> [] -> ascii_text bs <> [].
Proof. destruct bs; [congruence | discriminate]. Qed.

(** A line without line breaks, closed by LF, is one line. *)
Lemma splitlines_go_line (line rest : pystr) :
  forallb (fun c => negb (is_linebreak c)) line = true ->
  forall cur,
    splitlines_go cur (line ++ 10%N :: rest)
    = (rev cur ++ line) :: splitlines_go [] rest.
Proof.
  induction line as [|c line IH]; intros H cur.
  - simpl. now rewrite app_nil_r.
  - simpl in H. apply andb_true_iff in H. destruct H as [Hc Hline].
    apply negb_true_iff in Hc.
    assert (Hcr : (c =? 13)%N = false).
    { destruct (c =? 13)%N eqn:E; [|reflexivity].
      apply N.eqb_eq in E. subst c. discriminate Hc. }
    simpl app. cbn [splitlines_go]. rewrite Hcr, Hc, (IH Hline).
    simpl rev. now rewrite <- app_assoc.
Qed.

Lemma readlines_go_line (line rest : bytes) :
  forallb (fun b => negb (Byte.eqb b x0a)) line = true ->
  forall cur,
    readlines_go cur (line ++ x0a :: rest)
    = (rev cur ++ line ++ [x0a]) :: readlines_go [] rest.
Proof.
  induction line as [|b line IH]; intros H cur.
  - reflexivity.
  - simpl in H. apply andb_true_iff in H. destruct H as [Hb Hline].
    apply negb_true_iff in Hb.
    simpl app. cbn [readlines_go]. rewrite Hb, (IH Hline).
    simpl rev. now rewrite <- app_assoc.
Qed.

Lemma strip_lead (ws core : pystr) :
  forallb is_space ws = true ->
  core <> [] ->
  forallb (fun c => negb (is_space c)) core = true ->
  strip (ws ++ core) = core.
Proof.
  intros Hws Hne Hcore.
  rewrite <- (app_nil_r core) at 1. now apply strip_around.
Qed.

(** *** Cutting at "::" *)

Section SplitSteps.
Variable A : Type.
Variable eqb : A -> A -> bool.
Variable sep : list A.

Lemma split_go_pass (cur : list A) (c : A) (t : list A) :
  startswith eqb sep (c :: t) = false ->
  split_go eqb sep 0 cur (c :: t) = split_go eqb sep 0 (c :: cur) t.
Proof. intros H. cbn [split_go]. now rewrite H. Qed.

Lemma split_go_cut (cur : list A) (c : A) (t : list A) :
  startswith eqb sep (c :: t) = true ->
  split_go eqb sep 0 cur (c :: t)
  = rev cur :: split_go eqb sep (length sep - 1) [] t.
Proof. intros H. cbn [split_go]. now rewrite H. Qed.

Lemma split_go_skip (k : nat) (cur : list A) (c : A) (t : list A) :
  split_go eqb sep (S k) cur (c :: t) = split_go eqb sep k cur t.
Proof. reflexivity. Qed.
End SplitSteps.

(** Text without a colon is one piece. *)
Lemma split_go_no_colon (s : pystr) :
  forallb (fun c => negb (c =? 58)%N) s = true ->
  forall cur, split_go N.eqb (lit "::") 0 cur s = [rev cur ++ s].
Proof.
  induction s as [|c s IH]; intros H cur.
  - simpl. now rewrite app_nil_r.
  - simpl in H. apply andb_true_iff in H. destruct H as [Hc Hs].
    apply negb_true_iff in Hc.
    rewrite split_go_pass.
    + rewrite (IH Hs). simpl rev. now rewrite <- app_assoc.
    + change (lit "::") with [58%N; 58%N]. cbn [startswith].
      rewrite N.eqb_sym, Hc. reflexivity.
Qed.

Lemma tag_of_classifier_line (t : pystr) :
  forallb (fun c => negb (c =? 58)%N) t = true ->
  t <> [] ->
  forallb (fun c => negb (is_space c)) t = true ->
  tag_of (lit "Classifier: Programming Language :: Python :: " ++ t) = t.
Proof.
  intros Hcolon Hne Hspace. unfold tag_of, split.
  change (lit "Classifier: Programming Language :: Python :: ")
    with (map N.of_nat
            [67; 108; 97; 115; 115; 105; 102; 105; 101; 114; 58; 32; 80;
             114; 111; 103; 114; 97; 109; 109; 105; 110; 103; 32; 76; 97;
             110; 103; 117; 97; 103; 101; 32; 58; 58; 32; 80; 121; 116;
             104; 111; 110; 32; 58; 58; 32]).
  cbn [map app].
  change (lit "::") with [58%N; 58%N].
  repeat first
    [ rewrite split_go_pass by reflexivity
    | rewrite split_go_cut by reflexivity; cbn [length Nat.sub]
    | rewrite split_go_skip ].
  change [58%N; 58%N] with (lit "::").
  rewrite (split_go_no_colon t Hcolon).
  cbn [last rev app].
  apply (strip_lead [32%N] t); [reflexivity | assumption | assumption].
Qed.

(** *** A whole metadata document *)

Lemma plain_no_colon_facts (bs : bytes) :
  plain_no_colon bs = true ->
  plain bs = true
  /\ forallb (fun c => negb (c =? 58)%N) (ascii_text bs) = true.
Proof.
  unfold plain_no_colon, plain, ascii_text. rewrite !forallb_forall.
  intros H. split.
  - intros b Hb. specialize (H b Hb). apply andb_true_iff in H. tauto.
  - intros c Hc. apply in_map_iff in Hc. destruct Hc as [b [<- Hb]].
    specialize (H b Hb). apply andb_true_iff in H. destruct H as [_ H].
    apply negb_true_iff in H. apply negb_true_iff.
    destruct (Byte.to_N b =? 58)%N eqn:E; [|reflexivity].
    apply N.eqb_eq in E. pose proof (Byte.of_to_N b) as Hof.
    rewrite E in Hof. vm_compute in Hof. injection Hof as <-.
    discriminate H.
Qed.

Lemma metadata_document_lines (name version : bytes) (tag : option bytes) :
  plain name = true ->
  plain version = true ->
  (forall t, tag = Some t -> plain t = true) ->
  exists text,
    decode_utf8 (metadata_document name version tag) = Return text
    /\ splitlines text =
       [lit "Metadata-Version: 2.1";
        lit "Name: " ++ ascii_text name;
        lit "Version: " ++ ascii_text version]
       ++ match tag with
          | Some t =>
              [lit "Classifier: Programming Language :: Python :: "
               ++ ascii_text t]
          | None => []
          end.
Proof.
  intros Hname Hversion Htag.
  exists (ascii_text (metadata_document name version tag)). split.
  - unfold decode_utf8. rewrite utf8_ascii; [reflexivity|].
    unfold metadata_document. rewrite !forallb_app.
    rewrite (plain_is_ascii name Hname), (plain_is_ascii version Hversion).
    destruct tag as [t|]; [|reflexivity].
    rewrite !forallb_app, (plain_is_ascii t (Htag t eq_refl)). reflexivity.
  - assert (Htext :
      ascii_text (metadata_document name version tag) =
      lit "Metadata-Version: 2.1" ++ 10%N ::
      (lit "Name: " ++ ascii_text name) ++ 10%N ::
      (lit "Version: " ++ ascii_text version) ++ 10%N ::
      match tag with
      | Some t =>
          (lit "Classifier: Programming Language :: Python :: "
           ++ ascii_text t) ++ [10%N]
      | None => []
      end).
    { unfold metadata_document, ascii_text.
      destruct tag as [t|]; rewrite !map_app, <- ?app_assoc; reflexivity. }
    rewrite Htext. unfold splitlines.
    rewrite splitlines_go_line by reflexivity.
    rewrite splitlines_go_line
      by (rewrite forallb_app, (plain_text_no_linebreak name Hname);
          reflexivity).
    rewrite splitlines_go_line
      by (rewrite forallb_app, (plain_text_no_linebreak version Hversion);
          reflexivity).
    destruct tag as [t|]; [|reflexivity].
    rewrite splitlines_go_line
      by (rewrite forallb_app,
            (plain_text_no_linebreak t (Htag t eq_refl)); reflexivity).
    reflexivity.
Qed.

Lemma truthy_some (s : pystr) : s <> [] -> truthy (Some s) = true.
Proof. destruct s; [congruence | reflexivity]. Qed.

(** X14.  A metadata document with a non-empty name and version made of
    printable ASCII without spaces is named name-version-py3-none-any
    .metadata.txt, and name-version-py{tag}.metadata.txt when it has the
    classifier line for a tag (printable ASCII without spaces or colons):
    decoding, line splitting, field lookup and trimming give back what the
    document was made from, whatever the base name. *)
Theorem metadata_document_filename (name version : bytes)
        (tag : option bytes) (base : pystr) :
  name <> [] -> version <> [] ->
  plain name = true -> plain version = true ->
  (forall t, tag = Some t -> t <> [] /\ plain_no_colon t = true) ->
  detect_file_type (metadata_document name version tag) base =
  ascii_text name ++ lit "-" ++ ascii_text version
  ++ match tag with
     | Some t => lit "-py" ++ ascii_text t ++ lit ".metadata.txt"
     | None => lit "-py3-none-any.metadata.txt"
     end.
Proof.
  intros Hn Hv Hname Hversion Htag.
  assert (Hmv : bstartswith (blit "Metadata-Version")
                            (metadata_document name version tag) = true)
    by reflexivity.
  assert (Htag' : forall t, tag = Some t -> plain t = true).
  { intros t Ht. destruct (Htag t Ht) as [_ H].
    now apply plain_no_colon_facts. }
  destruct (metadata_document_lines name version tag Hname Hversion Htag')
    as [text [Hdec Hlines]].
  rewrite (detect_metadata_branch _ base Hmv).
  rewrite (metadata_branch_text _ Hdec). rewrite Hlines.
  assert (Hfield : forall value,
             value <> [] -> plain value = true ->
             strip ([32%N] ++ ascii_text value) = ascii_text value).
  { intros value Hne Hp. apply strip_lead; [reflexivity | |].
    - now apply ascii_text_nonempty.
    - now apply plain_text_no_space. }
  destruct tag as [t|].
  - destruct (Htag t eq_refl) as [Ht Hcolon].
    destruct (plain_no_colon_facts t Hcolon) as [Hplain Hnocolon].
    assert (H1 : metadata_name
                   ([lit "Metadata-Version: 2.1";
                     lit "Name: " ++ ascii_text name;
                     lit "Version: " ++ ascii_text version]
                    ++ [lit "Classifier: Programming Language :: Python :: "
                        ++ ascii_text t])
                 = Some (ascii_text name)).
    { change (Some (strip ([32%N] ++ ascii_text name))
              = Some (ascii_text name)).
      now rewrite (Hfield name Hn Hname). }
    assert (H2 : metadata_version
                   ([lit "Metadata-Version: 2.1";
                     lit "Name: " ++ ascii_text name;
                     lit "Version: " ++ ascii_text version]
                    ++ [lit "Classifier: Programming Language :: Python :: "
                        ++ ascii_text t])
                 = Some (ascii_text version)).
    { change (Some (strip ([32%N] ++ ascii_text version))
              = Some (ascii_text version)).
      now rewrite (Hfield version Hv Hversion). }
    assert (H3 : metadata_tag
                   ([lit "Metadata-Version: 2.1";
                     lit "Name: " ++ ascii_text name;
                     lit "Version: " ++ ascii_text version]
                    ++ [lit "Classifier: Programming Language :: Python :: "
                        ++ ascii_text t])
                 = Some (ascii_text t)).
    { change (Some (tag_of
                (lit "Classifier: Programming Language :: Python :: "
                 ++ ascii_text t)) = Some (ascii_text t)).
      rewrite tag_of_classifier_line; [reflexivity | assumption | |].
      - now apply ascii_text_nonempty.
      - now apply plain_text_no_space. }
    rewrite H1, H2, H3.
    rewrite !truthy_some by (apply ascii_text_nonempty; assumption).
    reflexivity.
  - assert (H1 : metadata_name
                   ([lit "Metadata-Version: 2.1";
                     lit "Name: " ++ ascii_text name;
                     lit "Version: " ++ ascii_text version] ++ [])
                 = Some (ascii_text name)).
    { change (Some (strip ([32%N] ++ ascii_text name))
              = Some (ascii_text name)).
      now rewrite (Hfield name Hn Hname). }
    assert (H2 : metadata_version
                   ([lit "Metadata-Version: 2.1";
                     lit "Name: " ++ ascii_text name;
                     lit "Version: " ++ ascii_text version] ++ [])
                 = Some (ascii_text version)).
    { change (Some (strip ([32%N] ++ ascii_text version))
              = Some (ascii_text version)).
      now rewrite (Hfield version Hv Hversion). }
    assert (H3 : metadata_tag
                   ([lit "Metadata-Version: 2.1";
                     lit "Name: " ++ ascii_text name;
                     lit "Version: " ++ ascii_text version] ++ [])
                 = None) by reflexivity.
    rewrite H1, H2, H3.
    rewrite !truthy_some by (apply ascii_text_nonempty; assumption).
    reflexivity.
Qed.

Lemma metadata_document_filename_witness :
  detect_file_type
    (metadata_document (blit "foo") (blit "1.0") (Some (blit "3.9")))
    (lit "b")
  = lit "foo-1.0-py3.9.metadata.txt".
Proof.
  apply (metadata_document_filename (blit "foo") (blit "1.0")
           (Some (blit "3.9")) (lit "b"));
    try discriminate; try reflexivity.
  intros t Ht. injection Ht as <-. split; [discriminate | reflexivity].
Defined.

(** *** A whole wheel archive *)

Lemma strip_framed (a : N) (mid core ws : pystr) :
  is_space a = false ->
  core <> [] ->
  forallb (fun c => negb (is_space c)) core = true ->
  forallb is_space ws = true ->
  strip ((a :: mid ++ core) ++ ws) = a :: mid ++ core.
Proof.
  intros Ha Hne Hcore Hws. unfold strip.
  cbn [app dropwhile]. rewrite Ha.
  change (a :: (mid ++ core) ++ ws) with ((a :: mid ++ core) ++ ws).
  rewrite rev_app_distr, dropwhile_all
    by (rewrite forallb_forall in *; intros x Hx; apply Hws;
        now apply in_rev).
  change (a :: mid ++ core) with ((a :: mid) ++ core).
  rewrite rev_app_distr, dropwhile_none.
  - rewrite <- rev_app_distr. apply rev_involutive.
  - intros Hnil. apply Hne. rewrite <- (rev_involutive core), Hnil.
    reflexivity.
  - rewrite forallb_forall in *. intros x Hx. apply Hcore.
    now apply in_rev.
Qed.

Lemma wheel_archive_folder (pick : nat) (stem : pystr) (tag : bytes) :
  no_slash stem ->
  dist_info_folders (wheel_archive stem tag) = [stem ++ lit ".dist-info"]
  /\ set_pop pick (dist_info_folders (wheel_archive stem tag))
     = stem ++ lit ".dist-info".
Proof.
  intros Hstem.
  assert (Hclean : forall x, In x (stem ++ lit ".dist-info") ->
                             (47 =? x)%N = false).
  { intros x Hx. apply in_app_or in Hx. destruct Hx as [Hx | Hx].
    - now apply Hstem.
    - vm_compute in Hx.
      repeat (destruct Hx as [<- | Hx]; [reflexivity|]). destruct Hx. }
  assert (Hf : dist_info_folders (wheel_archive stem tag)
               = [stem ++ lit ".dist-info"]).
  { unfold dist_info_folders, wheel_archive. cbn [namelist map fst filter].
    rewrite app_assoc. fold wheel_suffix.
    rewrite endswith_folder_wheel, sendswith_self_app.
    cbn [map set_of str_mem existsb]. unfold first_segment.
    now rewrite (split_folder_wheel _ Hclean). }
  split; [exact Hf|]. rewrite Hf. unfold set_pop. cbn [length].
  now rewrite Nat.mod_1_r.
Qed.

(** X15.  A wheel archive whose one entry is stem.dist-info/WHEEL, with a
    version line and a line "Tag: tag" in it, is given the name
    stem-tag.whl, for every stem without "/" in which ".dist-info" does
    not occur and every non-empty tag of printable ASCII without spaces. *)
Theorem wheel_archive_filename (pick : nat) (stem : pystr) (tag : bytes) :
  no_slash stem ->
  suffix_only stem ->
  tag <> [] ->
  plain tag = true ->
  reconstruct_whl_filename pick (wheel_archive stem tag)
  = Return (Some (stem ++ lit "-" ++ ascii_text tag ++ lit ".whl")).
Proof.
  intros Hstem Honly Hne Hplain.
  destruct (wheel_archive_folder pick stem tag Hstem) as [Hf Hpop].
  assert (Hfolders : dist_info_folders (wheel_archive stem tag) <> [])
    by (rewrite Hf; discriminate).
  assert (Htagline :
    strip (ascii_text ((blit "Tag: " ++ tag) ++ [x0a]))
    = lit "Tag: " ++ ascii_text tag).
  { unfold ascii_text. rewrite !map_app. fold (ascii_text tag).
    apply (strip_framed 84%N (lit "ag: ") (ascii_text tag) [10%N]);
      [reflexivity | now apply ascii_text_nonempty
       | now apply plain_text_no_space | reflexivity]. }
  rewrite (@reconstruct_first_tag pick (wheel_archive stem tag)
             (blit "Wheel-Version: 1.0
Tag: " ++ tag ++ blit "
")
             [blit "Wheel-Version: 1.0
"]
             ((blit "Tag: " ++ tag) ++ [x0a]) []
             (ascii_text ((blit "Tag: " ++ tag) ++ [x0a])) Hfolders).
  - rewrite Hpop, (dist_info_suffix_stripped Honly), Htagline.
    change (skipn 4 (lit "Tag: " ++ ascii_text tag))
      with ([32%N] ++ ascii_text tag).
    rewrite strip_lead;
      [reflexivity | reflexivity | now apply ascii_text_nonempty
       | now apply plain_text_no_space].
  - rewrite Hpop. unfold archive_open, wheel_archive. cbn [rev app find fst].
    rewrite <- app_assoc.
    rewrite (proj2 (str_eqb_eq _ _) eq_refl). reflexivity.
  - unfold readlines.
    change (blit "Wheel-Version: 1.0
Tag: " ++ tag ++ blit "
")
      with (blit "Wheel-Version: 1.0" ++ x0a
              :: (blit "Tag: " ++ tag) ++ x0a :: []).
    rewrite readlines_go_line by reflexivity.
    rewrite readlines_go_line.
    + reflexivity.
    + rewrite forallb_app. cbn [forallb blit]. simpl.
      unfold plain in Hplain. rewrite forallb_forall in *.
      intros b Hb. apply negb_true_iff.
      now apply plain_byte_facts, Hplain.
  - repeat constructor. eexists. split; reflexivity.
  - unfold decode_utf8. rewrite utf8_ascii; [reflexivity|].
    rewrite !forallb_app, (plain_is_ascii tag Hplain). reflexivity.
  - rewrite Htagline. reflexivity.
Qed.

Lemma wheel_archive_filename_witness :
  reconstruct_whl_filename 0
    (wheel_archive (lit "pkg-1.0") (blit "py3-none-any"))
  = Return (Some (lit "pkg-1.0-py3-none-any.whl")).
Proof.
  apply (wheel_archive_filename 0 (lit "pkg-1.0") (blit "py3-none-any")).
  - intros x Hx. vm_compute in Hx.
    repeat (destruct Hx as [<- | Hx]; [reflexivity|]). destruct Hx.
  - intros i Hi. change (length (lit "pkg-1.0")) with 7 in Hi.
    do 7 (destruct i as [|i]; [reflexivity|]). lia.
  - discriminate.
  - reflexivity.
Defined.

(** ** What the failures mean *)


Lemma scan_wheel_none_inv (variable_name : pystr) (lines : list bytes) :
  scan_wheel variable_name lines = Return None ->
  Forall no_tag_line lines.
Proof.
  induction lines as [|l lines IH]; [constructor|].
  rewrite scan_wheel_cons.
  destruct (decode_utf8 l) as [decoded|e] eqn:Hdec; [|discriminate].
  cbv beta iota zeta delta [rbind].
  destruct (sstartswith (lit "Tag:") (strip decoded)) eqn:Htag;
    [discriminate|].
  intros H. constructor; [|now apply IH].
  exists decoded. split; assumption.
Qed.




(** X17.  When [reconstruct_whl_filename] returns [None], the archive has
    the entry [folder/WHEEL] for the first segment [folder] of an entry
    name ending in ".dist-info/WHEEL", and every line of that entry
    decodes and, trimmed, does not start with "Tag:". *)
Theorem reconstruct_none_inv (pick : nat) (a : archive) :
  reconstruct_whl_filename pick a = Return None ->
  exists name content,
    In name (namelist a)
    /\ sendswith wheel_suffix name = true
    /\ In (first_segment name ++ lit "/WHEEL", content) a
    /\ Forall no_tag_line (readlines content).
Proof.
  intros Hret.
  destruct (dist_info_folders a) as [|f rest] eqn:Hf.
  { unfold reconstruct_whl_filename in Hret. rewrite Hf in Hret.
    discriminate. }
  assert (Hne : dist_info_folders a <> []) by (rewrite Hf; discriminate).
  rewrite (reconstruct_unfold pick a Hne) in Hret.
  pose proof (set_pop_In pick Hne) as Hin.
  apply dist_info_folders_In in Hin.
  destruct Hin as [name [Hin [Hend Hseg]]].
  rewrite <- Hseg in Hret.
  destruct (archive_open a (first_segment name ++ lit "/WHEEL"))
    as [content|e] eqn:Hopen; [|discriminate].
  cbv beta iota delta [rbind] in Hret.
  exists name, content. split; [exact Hin|]. split; [exact Hend|].
  split; [now apply archive_open_present|].
  eapply scan_wheel_none_inv. exact Hret.
Qed.

Lemma reconstruct_none_inv_witness :
  exists name content,
    In name (namelist sample_wheel_no_tag)
    /\ Forall no_tag_line (readlines content).
Proof.
  destruct (reconstruct_none_inv 0 sample_wheel_no_tag eq_refl)
    as [name [content [Hin [_ [_ Hall]]]]].
  exists name, content. split; assumption.
Defined.


